(** * dock_prep.subprocess_handler: a shallow embedding and its properties

    The Python module [dock_prep/subprocess_handler.py] builds a shell command
    for one of four external tools (MGLTools, OpenBabel, MolProbity, PDB2PQR),
    runs it with a timeout and reports whether the output file appeared.

    The embedding follows the module function by function.  Everything the
    module does to its surroundings is explicit state: the file system, the
    working directory, the processes that were launched and the lines that
    were printed.  Python exceptions are values of an error monad, with
    [try]/[except]/[finally] as combinators.

    What lies outside the module is kept as small as the module needs it:
    - paths are strings of bytes, the file system has files and directories
      but no symbolic links and no permissions, and a path is looked up
      after [os.path.abspath] has normalised it;
    - the working directory is a name: [os.getcwd] fails once that name is
      no directory of the file system any more, and the functions of
      [os.path] compute on the name;
    - what a launched command does is given by a [platform]: any outcome
      and any change of the file system, decided by the command, the
      timeout, the working directory and the file system;
    - the standard error stream (the traceback of the executor) is not
      recorded. *)

From stdpp Require Import base strings gmap list pretty.
From Stdlib Require Import ZArith Ascii String.

Local Open Scope Z_scope.

(** ** Python strings

    Paths and commands are byte strings; the [str] methods the module calls
    are modelled on them ([lower] on the ASCII letters). *)

Module Str.

Definition dquote : string := String (Ascii.ascii_of_nat 34) EmptyString.

Definition of_chars (l : list ascii) : string := string_of_list_ascii l.
Definition chars (s : string) : list ascii := list_ascii_of_string s.

(** [s[i:j]] for [0 <= i], [0 <= j] (the only slices the code takes). *)
Definition slice (i j : Z) (s : string) : string :=
  String.substring (Z.to_nat i) (Z.to_nat (j - i)) s.

Definition slice_from (i : Z) (s : string) : string :=
  String.substring (Z.to_nat i) (String.length s - Z.to_nat i) s.

(** [s.rfind(c)] for a one-character [c]: the last index, or -1. *)
Fixpoint rfind_from (c : ascii) (s : string) (i : Z) (acc : Z) : Z :=
  match s with
  | EmptyString => acc
  | String a r => rfind_from c r (i + 1) (if Ascii.eqb a c then i else acc)
  end.

Definition rfind (c : ascii) (s : string) : Z := rfind_from c s 0 (-1).

Definition startswith (p s : string) : bool := String.prefix p s.

Definition endswith (p s : string) : bool :=
  String.prefix (string_of_list_ascii (rev (list_ascii_of_string p)))
                (string_of_list_ascii (rev (list_ascii_of_string s))).

Definition lower_char (a : ascii) : ascii :=
  let n := nat_of_ascii a in
  if (Nat.leb 65 n && Nat.leb n 90)%bool then ascii_of_nat (n + 32) else a.

Fixpoint lower (s : string) : string :=
  match s with
  | EmptyString => EmptyString
  | String a r => String (lower_char a) (lower r)
  end.

(** [s.lstrip(c)] and [s.rstrip(c)] for a one-character [c]. *)
Fixpoint lstrip (c : ascii) (s : string) : string :=
  match s with
  | EmptyString => EmptyString
  | String a r => if Ascii.eqb a c then lstrip c r else s
  end.

Definition rstrip (c : ascii) (s : string) : string :=
  of_chars (rev (chars (lstrip c (of_chars (rev (chars s)))))).

Definition is_space (a : ascii) : bool :=
  let n := nat_of_ascii a in
  ((Nat.leb 9 n && Nat.leb n 13) || Nat.eqb n 32 || (Nat.leb 28 n && Nat.leb n 31))%bool.

(** [s.split(c)] with an explicit one-character separator. *)
Fixpoint split (c : ascii) (s : string) : list string :=
  match s with
  | EmptyString => [EmptyString]
  | String a r =>
      if Ascii.eqb a c then EmptyString :: split c r
      else match split c r with
           | x :: xs => String a x :: xs
           | [] => [String a EmptyString]
           end
  end.

(** [s.split()] without a separator: the runs of non-blank characters. *)
Fixpoint words_go (cur : list ascii) (s : string) : list string :=
  match s with
  | EmptyString => match cur with [] => [] | _ => [of_chars (rev cur)] end
  | String a r =>
      if is_space a
      then match cur with
           | [] => words_go [] r
           | _ => of_chars (rev cur) :: words_go [] r
           end
      else words_go (a :: cur) r
  end.

Definition words (s : string) : list string := words_go [] s.

(** [s.replace(old, new)] for a non-empty [old]: the occurrences are
    replaced from left to right, without overlap.  [skip] counts the
    characters of a replaced occurrence that are still to be dropped. *)
Fixpoint replace_go (old new : string) (skip : nat) (s : string) : string :=
  match s with
  | EmptyString => EmptyString
  | String a r =>
      match skip with
      | S k => replace_go old new k r
      | O =>
          if String.prefix old s
          then new +:+ replace_go old new (String.length old - 1) r
          else String a (replace_go old new O r)
      end
  end.

Definition replace (old new s : string) : string := replace_go old new O s.

(** [sep.join(l)] *)
Definition join (sep : string) (l : list string) : string := String.concat sep l.

(** Truthiness of a string: [if s:] *)
Definition truthy (s : string) : bool := negb (String.eqb s EmptyString).

(** [s1 in s2] on strings: [s1] occurs in [s2]. *)
Definition occurs (s1 s2 : string) : Prop := ∃ pre post, s2 = pre +:+ s1 +:+ post.

End Str.

(** ** [os.path] (posixpath) *)

Module os_path.

Definition sep : ascii := "/"%char.
Definition extsep : ascii := "."%char.

Definition isabs (p : string) : bool := Str.startswith "/" p.

(** [i = p.rfind('/') + 1; return p[i:]] *)
Definition basename (p : string) : string :=
  Str.slice_from (Str.rfind sep p + 1) p.

(** [head = p[:i]; if head and head != '/'*len(head): head = head.rstrip('/')] *)
Definition dirname (p : string) : string :=
  let i := Str.rfind sep p + 1 in
  let head := Str.slice 0 i p in
  if (Str.truthy head && negb (forallb (Ascii.eqb sep) (Str.chars head)))%bool
  then Str.rstrip sep head else head.

(** [genericpath._splitext]: the extension starts at the last dot of the
    last component, unless that component has only dots before it. *)
Definition splitext (p : string) : string * string :=
  let sepIndex := Str.rfind sep p in
  let dotIndex := Str.rfind extsep p in
  if (sepIndex <? dotIndex) &&
     existsb (fun a => negb (Ascii.eqb a extsep))
             (Str.chars (Str.slice (sepIndex + 1) dotIndex p))
  then (Str.slice 0 dotIndex p, Str.slice_from dotIndex p)
  else (p, EmptyString).

(** [os.path.join(a, b)] *)
Definition join (a b : string) : string :=
  if Str.startswith "/" b then b
  else if (negb (Str.truthy a) || Str.endswith "/" a)%bool
       then a +:+ b
       else a +:+ "/" +:+ b.

(** The loop of [normpath] over the components. *)
Fixpoint norm_comps (initial_slashes : nat) (comps new_comps : list string)
  : list string :=
  match comps with
  | [] => rev new_comps
  | comp :: rest =>
      if (String.eqb comp "" || String.eqb comp ".")%bool
      then norm_comps initial_slashes rest new_comps
      else if (negb (String.eqb comp "..")
               || (Nat.eqb initial_slashes 0 && match new_comps with [] => true | _ => false end)
               || match new_comps with c :: _ => String.eqb c ".." | [] => false end)%bool
           then norm_comps initial_slashes rest (comp :: new_comps)
           else norm_comps initial_slashes rest (tail new_comps)
  end.

Definition normpath (path : string) : string :=
  if negb (Str.truthy path) then "."%string
  else
    let initial_slashes :=
      if Str.startswith "/" path
      then if (Str.startswith "//" path && negb (Str.startswith "///" path))%bool
           then 2%nat else 1%nat
      else 0%nat in
    let comps := norm_comps initial_slashes (Str.split sep path) [] in
    let path' := Str.join "/" comps in
    let path'' := Str.of_chars (repeat sep initial_slashes) +:+ path' in
    if Str.truthy path'' then path'' else "."%string.

(** [os.path.abspath(path)] with the working directory [cwd] *)
Definition abspath (cwd path : string) : string :=
  normpath (if isabs path then path else join cwd path).

Fixpoint common_prefix_len (l1 l2 : list string) : nat :=
  match l1, l2 with
  | a :: r1, b :: r2 => if String.eqb a b then S (common_prefix_len r1 r2) else O
  | _, _ => O
  end.

(** [os.path.relpath(path)], relative to the working directory [cwd] *)
Definition relpath (cwd path : string) : string :=
  let nonempty := filter (fun x => Str.truthy x = true) in
  let start_list := nonempty (Str.split sep (abspath cwd ".")) in
  let path_list := nonempty (Str.split sep (abspath cwd path)) in
  let i := common_prefix_len start_list path_list in
  let rel_list := repeat ".."%string (List.length start_list - i)%nat ++ drop i path_list in
  match rel_list with
  | [] => "."%string
  | c :: cs => fold_left join cs c
  end.

(** The extension as both [construct_shell_command] and [run_program]
    compute it: [os.path.splitext(p)[1].lower().lstrip('.')] *)
Definition ext_of (p : string) : string :=
  Str.lstrip extsep (Str.lower (snd (splitext p))).

End os_path.

(** ** Python exceptions *)

Inductive exn :=
| FileNotFoundError (msg : string)
| NotADirectoryError (msg : string)
| IsADirectoryError (msg : string)
| KeyError (key : string)
| TypeError (msg : string)
| JSONDecodeError (msg : string)
| ValueError (msg : string)
| CalledProcessError (cmd : string) (returncode : Z) (output stderr : string)
| TimeoutExpired (cmd : string) (timeout : option Z)
| OtherError (msg : string).

(** [subprocess.CompletedProcess] *)
Record completed := Completed {
  cp_returncode : Z;
  cp_stdout : string;
  cp_stderr : string }.

(** ** The world outside the interpreter *)

(** A directory entry as [os.stat] shows it. *)
Record node := Node { is_dir : bool; st_size : Z }.

(** How a launched shell command ends: with an exit status and its captured
    output, by running into the timeout, or not at all because the launch
    itself failed (the message is the one of the operating system). *)
Inductive outcome :=
| Exited (returncode : Z) (output stderr : string)
| TimedOut
| LaunchFailed (msg : string).

(** One call of [subprocess.run(command, shell=True, timeout=..., check=...)]:
    what was asked for, the directory it ran in, and how it ended. *)
Record spawn := Spawn {
  sp_command : string;
  sp_timeout : option Z;
  sp_check : bool;
  sp_cwd : string;
  sp_outcome : outcome }.

(** The file system maps normalised absolute paths to entries (no symbolic
    links).  [spawned] and [stdout] are histories, oldest first. *)
Record world := World {
  fs : gmap string node;
  cwd : string;
  conda_default_env : option string;
  spawned : list spawn;
  stdout : list string }.

Definition set_fs (f : gmap string node) (w : world) : world :=
  World f (cwd w) (conda_default_env w) (spawned w) (stdout w).
Definition set_cwd (d : string) (w : world) : world :=
  World (fs w) d (conda_default_env w) (spawned w) (stdout w).
Definition add_spawn (s : spawn) (w : world) : world :=
  World (fs w) (cwd w) (conda_default_env w) (spawned w ++ [s]) (stdout w).
Definition add_line (l : string) (w : world) : world :=
  World (fs w) (cwd w) (conda_default_env w) (spawned w) (stdout w ++ [l]).

(** What the module cannot know: what a shell command does to the file
    system and how it ends (given the command, the timeout, the working
    directory and the file system it starts in), what [json.load] reads
    from the file at a path (a mapping, or the message of the decoding
    error), and the names of the signals of the platform. *)
Record platform := Platform {
  sh : string → option Z → string → gmap string node → outcome * gmap string node;
  json_load : string → gmap string string + string;
  signal_name : Z → option string }.

(** ** The monad of Python statements: state and exceptions *)

Inductive result (A : Type) :=
| Ok (a : A)
| Raise (e : exn).
Arguments Ok {A} a.
Arguments Raise {A} e.

Definition M (A : Type) : Type := world → result A * world.

Definition ret {A} (a : A) : M A := λ w, (Ok a, w).
Definition raise {A} (e : exn) : M A := λ w, (Raise e, w).
Definition bind {A B} (m : M A) (k : A → M B) : M B :=
  λ w, match m w with
       | (Ok a, w') => k a w'
       | (Raise e, w') => (Raise e, w')
       end.

(** [try: m  except Exception as e: h e] *)
Definition try_except {A} (m : M A) (h : exn → M A) : M A :=
  λ w, match m w with
       | (Ok a, w') => (Ok a, w')
       | (Raise e, w') => h e w'
       end.

(** [try: m  finally: f]: [f] runs on every way out of [m]; an exception
    of [f] replaces the result of [m]. *)
Definition try_finally {A} (m : M A) (f : M unit) : M A :=
  λ w, match m w with
       | (r, w') =>
           match f w' with
           | (Ok _, w'') => (r, w'')
           | (Raise e, w'') => (Raise e, w'')
           end
       end.

Definition get {A} (f : world → A) : M A := λ w, (Ok (f w), w).
Definition modify (f : world → world) : M unit := λ w, (Ok tt, f w).

Declare Scope py_scope.
Delimit Scope py_scope with py.
Notation "x <- m ;; k" := (bind m (λ x, k))
  (at level 100, m at next level, right associativity) : py_scope.
Notation "m ;;; k" := (bind m (λ _, k))
  (at level 100, right associativity) : py_scope.
Local Open Scope py_scope.

Definition print (line : string) : M unit := modify (add_line line).

Fixpoint for_each {A} (l : list A) (body : A → M unit) : M unit :=
  match l with
  | [] => ret tt
  | x :: r => body x ;;; for_each r body
  end.

(** ** System calls *)

Module os.

(** The entry a path names, seen from the working directory. *)
Definition stat (w : world) (p : string) : option node :=
  if Str.truthy p then fs w !! os_path.abspath (cwd w) p else None.

(** [repr] of a path in the message of an [OSError] (a path of printable
    characters without quotes or backslashes). *)
Definition quoted (p : string) : string := "'" +:+ p +:+ "'".

Definition ENOENT (p : string) : exn :=
  FileNotFoundError ("[Errno 2] No such file or directory: " +:+ quoted p).
Definition ENOTDIR (p : string) : exn :=
  NotADirectoryError ("[Errno 20] Not a directory: " +:+ quoted p).
Definition EISDIR (p : string) : exn :=
  IsADirectoryError ("[Errno 21] Is a directory: " +:+ quoted p).

Definition path_exists (p : string) : M bool :=
  get (λ w, bool_decide (is_Some (stat w p))).

(** [os.getcwd()]: it fails once the working directory has been removed. *)
Definition getcwd : M string :=
  λ w, match fs w !! cwd w with
       | Some n =>
           if is_dir n then (Ok (cwd w), w)
           else (Raise (FileNotFoundError "[Errno 2] No such file or directory"), w)
       | None => (Raise (FileNotFoundError "[Errno 2] No such file or directory"), w)
       end.

Definition chdir (d : string) : M unit :=
  λ w, match stat w d with
       | Some n => if is_dir n
                   then (Ok tt, set_cwd (os_path.abspath (cwd w) d) w)
                   else (Raise (ENOTDIR d), w)
       | None => (Raise (ENOENT d), w)
       end.

(** The names in a directory (in the order of the map, Python leaves the
    order open). *)
Definition listdir (d : string) : M (list string) :=
  λ w, match stat w d with
       | Some n =>
           if is_dir n
           then let dir := os_path.abspath (cwd w) d in
                (Ok (os_path.basename <$>
                       filter (λ k, os_path.dirname k = dir ∧ k ≠ dir)
                              (fst <$> map_to_list (fs w))), w)
           else (Raise (ENOTDIR d), w)
       | None => (Raise (ENOENT d), w)
       end.

Definition remove (p : string) : M unit :=
  λ w, match stat w p with
       | Some n => if is_dir n
                   then (Raise (EISDIR p), w)
                   else (Ok tt, set_fs (delete (os_path.abspath (cwd w) p) (fs w)) w)
       | None => (Raise (ENOENT p), w)
       end.

Definition getsize (p : string) : M Z :=
  λ w, match stat w p with
       | Some n => (Ok (st_size n), w)
       | None => (Raise (ENOENT p), w)
       end.

Definition environ_get_CONDA_DEFAULT_ENV : M (option string) :=
  get conda_default_env.

End os.

(** A Python [float] is carried by its [repr], the shortest decimal text
    that reads back as the same float: this is what an f-string prints for
    it, and the module does nothing with the pH value but print it. *)
Record pyfloat := PyFloat { float_repr : string }.

(** A dict display [{k1: v1, k2: v2, ...}]: the items are stored from left
    to right, so a later item with the same key replaces an earlier one. *)
Definition dict_display (items : list (string * string)) : gmap string string :=
  foldl (λ d kv, <[kv.1 := kv.2]> d) ∅ items.

(** [f"{x}"] for [x = d.get(k)]: the value, or the text of [None]. *)
Definition format_optional (x : option string) : string :=
  match x with Some s => s | None => "None" end.

(** ** The module *)

Section subprocess_handler.

Context (P : platform).

(** [str(e)] *)
Definition exn_str (e : exn) : string :=
  match e with
  | FileNotFoundError msg | NotADirectoryError msg | IsADirectoryError msg
  | TypeError msg | JSONDecodeError msg | ValueError msg | OtherError msg => msg
  | KeyError key => os.quoted key
  | CalledProcessError cmd rc _ _ =>
      if rc <? 0
      then match signal_name P (- rc) with
           | Some nm => "Command '" +:+ cmd +:+ "' died with <Signals." +:+ nm
                          +:+ ": " +:+ pretty (- rc) +:+ ">."
           | None => "Command '" +:+ cmd +:+ "' died with unknown signal "
                       +:+ pretty (- rc) +:+ "."
           end
      else "Command '" +:+ cmd +:+ "' returned non-zero exit status "
             +:+ pretty rc +:+ "."
  | TimeoutExpired cmd t =>
      "Command '" +:+ cmd +:+ "' timed out after "
        +:+ match t with Some t => pretty t | None => "None" end +:+ " seconds"
  end.

(** [subprocess.run(command, shell=True, capture_output=True, text=True,
    timeout=timeout, check=check)]: the launch is recorded, the command
    acts on the file system, and the way it ends becomes a result or an
    exception. *)
Definition subprocess_run (command : string) (timeout : option Z) (check : bool)
  : M completed :=
  λ w, let '(o, f') := sh P command timeout (cwd w) (fs w) in
       let w' := set_fs f' (add_spawn (Spawn command timeout check (cwd w) o) w) in
       match o with
       | Exited rc out err =>
           if (check && negb (rc =? 0))%bool
           then (Raise (CalledProcessError command rc out err), w')
           else (Ok (Completed rc out err), w')
       | TimedOut => (Raise (TimeoutExpired command timeout), w')
       | LaunchFailed msg => (Raise (OtherError msg), w')
       end.

Definition _check_if_file_exists (input_path : string) : M bool :=
  found <- os.path_exists input_path ;;
  if negb found then
    print ("⚠️ WARNING: Input file not found at: " +:+ input_path) ;;;
    let directory :=
      if Str.truthy (os_path.dirname input_path)
      then os_path.dirname input_path else "." in
    print ("Contents of directory " +:+ directory +:+ ":") ;;;
    files <- os.listdir directory ;;
    for_each files (λ file, print ("  - " +:+ file)) ;;;
    raise (FileNotFoundError ("Input file not found: " +:+ input_path))
  else ret true.

Definition conda_probe : string :=
  "conda info --envs | grep " +:+ Str.dquote +:+ "*" +:+ Str.dquote.

Definition get_conda_env : M string :=
  conda_env <- os.environ_get_CONDA_DEFAULT_ENV ;;
  let alternative :=
    try_except
      (result <- subprocess_run conda_probe None false ;;
       if ((cp_returncode result =? 0) && Str.truthy (cp_stdout result))%bool
       then match Str.words (cp_stdout result) with
            | name :: _ => ret name
            | [] => raise (OtherError "list index out of range")
            end
       else ret "No conda environment detected")
      (λ _, ret "No conda environment detected") in
  match conda_env with
  | Some name => if Str.truthy name then ret name else alternative
  | None => alternative
  end.

(** [get_env_vars]; [config_file] defaults to [None] in every caller,
    and [os.path.exists(None)] is a type error. *)
Definition get_env_vars (config_file : option string) : M (gmap string string) :=
  match config_file with
  | None =>
      raise (TypeError
        "stat: path should be string, bytes, os.PathLike or integer, not NoneType")
  | Some config_file =>
      found <- os.path_exists config_file ;;
      if negb found then
        raise (FileNotFoundError ("Environment file not found at: " +:+ config_file))
      else
        entry <- get (λ w, os.stat w config_file) ;;
        location <- get (λ w, os_path.abspath (cwd w) config_file) ;;
        match entry with
        | Some n =>
            if is_dir n then raise (os.EISDIR config_file)
            else match json_load P location with
                 | inl env_vars => ret env_vars
                 | inr msg => raise (JSONDecodeError msg)
                 end
        | None => raise (os.ENOENT config_file)
        end
  end.

(** [env_vars[key]] *)
Definition getitem (env_vars : gmap string string) (key : string) : M string :=
  match env_vars !! key with
  | Some v => ret v
  | None => raise (KeyError key)
  end.

Definition format_map : gmap string string :=
  dict_display
    [("pdb", "pdb"); ("pqr", "pqr"); ("mol", "mol"); ("mol2", "mol2");
     ("sdf", "sdf"); ("xyz", "xyz"); ("pdbqt", "pdbqt"); ("cif", "mmcif");
     ("cif", "cif")].

(** [construct_shell_command]; the result is [None] when no branch
    returns. *)
Definition construct_shell_command (tool_name abs_input_path abs_output_path : string)
    (pH_value : pyfloat) (config_file : option string) : M (option string) :=
  let input_ext := os_path.ext_of abs_input_path in
  let output_ext := os_path.ext_of abs_output_path in
  if String.eqb tool_name "MGLTools" then
    env_vars <- get_env_vars config_file ;;
    mgl_bin <- getitem env_vars "MGL_BIN" ;;
    let pythonsh := os_path.join mgl_bin "pythonsh" in
    mgl_packages <- getitem env_vars "MGL_PACKAGES" ;;
    let prepare_receptor_script :=
      os_path.join (os_path.join (os_path.join mgl_packages "AutoDockTools")
                                 "Utilities24") "prepare_receptor4.py" in
    _check_if_file_exists pythonsh ;;;
    _check_if_file_exists prepare_receptor_script ;;;
    let input_filename :=
      if os_path.isabs abs_input_path
      then os_path.basename abs_input_path else abs_input_path in
    let output_filename :=
      if os_path.isabs abs_output_path
      then os_path.basename abs_output_path else abs_output_path in
    mgl_env_name <- getitem env_vars "MGL_ENV_NAME" ;;
    mgl_packages <- getitem env_vars "MGL_PACKAGES" ;;
    if String.eqb input_ext "pqr" then
      ret (Some ("conda run -n " +:+ mgl_env_name
                   +:+ " --no-capture-output bash -c 'export PYTHONPATH="
                   +:+ mgl_packages +:+ ":$PYTHONPATH && " +:+ pythonsh +:+ " "
                   +:+ prepare_receptor_script +:+ " -r " +:+ input_filename
                   +:+ " -o " +:+ output_filename
                   +:+ " -A checkhydrogens -C -U nphs_lps'"))
    else
      ret (Some ("conda run -n " +:+ mgl_env_name
                   +:+ " --no-capture-output bash -c 'export PYTHONPATH="
                   +:+ mgl_packages +:+ ":$PYTHONPATH && " +:+ pythonsh +:+ " "
                   +:+ prepare_receptor_script +:+ " -r " +:+ input_filename
                   +:+ " -o " +:+ output_filename
                   +:+ " -A checkhydrogens'"))
  else if String.eqb tool_name "OpenBabel" then
    let input_format := format_map !! input_ext in
    let output_format := format_map !! output_ext in
    ret (Some ("obabel -i" +:+ format_optional input_format +:+ " "
                 +:+ abs_input_path +:+ " -o" +:+ format_optional output_format
                 +:+ " -O " +:+ abs_output_path))
  else if String.eqb tool_name "MolProbity" then
    env_vars <- get_env_vars config_file ;;
    molprobity_bin <- getitem env_vars "MOLPROBITY_BIN" ;;
    let reduce := os_path.join molprobity_bin "reduce" in
    molprobity_bin <- getitem env_vars "MOLPROBITY_BIN" ;;
    let probe := os_path.join molprobity_bin "probe" in
    _check_if_file_exists reduce ;;;
    _check_if_file_exists probe ;;;
    ret (Some (reduce +:+ " -FLIP " +:+ abs_input_path +:+ " > " +:+ abs_output_path))
  else if String.eqb tool_name "PDB2PQR" then
    ret (Some ("pdb2pqr30 --ff AMBER --keep-chain --titration-state-method propka --with-ph "
                 +:+ float_repr pH_value +:+ " " +:+ abs_input_path
                 +:+ " " +:+ abs_output_path))
  else ret None.

(** The timeout [_run_subprocess_command] settles on (lines 76-82). *)
Definition effective_timeout (tool_name : string) (timeout : option Z) : Z :=
  match timeout with
  | Some t => t
  | None => if String.eqb tool_name "PDB2PQR" then 1800 else 300
  end.

(** The inner [try] of [_run_subprocess_command] (lines 110-123): the
    launch with [check=True].  [Some b] is the early [return b] of the
    handler, [None] falls through to the check of the output file. *)
Definition run_checked (tool_name command abs_output_path : string) (timeout : Z)
  : M (option bool) :=
  try_except
    (print ("Running command with timeout: " +:+ pretty timeout +:+ " seconds") ;;;
     result <- subprocess_run command (Some timeout) true ;;
     ret None)
    (λ e, match e with
          | CalledProcessError _ returncode output _ =>
              print output ;;;
              made <- (if String.eqb tool_name "MolProbity"
                       then os.path_exists abs_output_path else ret false) ;;
              if made then
                print ("Warning: " +:+ tool_name +:+ " returned non-zero exit code "
                         +:+ pretty returncode +:+ " but output file was created") ;;;
                ret (Some true)
              else raise e
          | TimeoutExpired _ _ =>
              print ("Command timed out after " +:+ pretty timeout
                       +:+ " seconds. Consider increasing the timeout for this operation.") ;;;
              raise e
          | _ => raise e
          end).

(** The check of the output file (lines 130-137). *)
Definition check_output (abs_output_path : string) : M bool :=
  made <- os.path_exists abs_output_path ;;
  if made then
    shown <- get (λ w, os_path.relpath (cwd w) abs_output_path) ;;
    print ("✅Successfully created output file: " +:+ shown) ;;;
    size <- os.getsize abs_output_path ;;
    print ("• File size: " +:+ pretty size +:+ " bytes") ;;;
    ret true
  else
    print "Error: Output file was not created despite successful command execution" ;;;
    ret false.

(** The handlers of the outer [try] (lines 138-150); the traceback goes
    to the standard error stream, which is not part of the model. *)
Definition report_failure (e : exn) : M bool :=
  match e with
  | CalledProcessError _ returncode output stderr =>
      print ("Command execution failed with return code " +:+ pretty returncode) ;;;
      (if Str.truthy output
       then print "Standard output:" ;;; print output else ret tt) ;;;
      (if Str.truthy stderr
       then print "Standard error:" ;;; print stderr else ret tt) ;;;
      raise e
  | _ =>
      print ("Unexpected error: " +:+ exn_str e) ;;;
      raise e
  end.

(** The [finally] clause (lines 151-154). *)
Definition restore_cwd (original_cwd : string) : M unit :=
  now <- os.getcwd ;;
  if negb (String.eqb now original_cwd) then os.chdir original_cwd else ret tt.

(** The command that is launched (lines 87-105): MGLTools looks its
    files up in the working directory, so for it the directory of the
    input becomes the working directory and the command is built again
    on the bare file names. *)
Definition launch_command (tool_name command abs_input_path abs_output_path : string)
    (config_file : option string) : M string :=
  if String.eqb tool_name "MGLTools" then
    let input_dir := os_path.dirname abs_input_path in
    let input_filename := os_path.basename abs_input_path in
    let output_filename := os_path.basename abs_output_path in
    print ("• input_dir: " +:+ input_dir) ;;;
    (if Str.truthy input_dir then
       print ("Changing directory to: " +:+ input_dir) ;;;
       os.chdir input_dir
     else ret tt) ;;;
    command <- construct_shell_command tool_name input_filename
                 output_filename (PyFloat "7.4") config_file ;;
    match command with
    | Some command => ret command
    | None => raise (TypeError "expected str, bytes or os.PathLike object, not NoneType")
    end
  else ret command.

(** The body of the outer [try] (lines 85-137). *)
Definition guarded (tool_name command abs_input_path abs_output_path : string)
    (config_file : option string) (timeout : Z) : M bool :=
  command <- launch_command tool_name command abs_input_path abs_output_path
               config_file ;;
  early <- run_checked tool_name command abs_output_path timeout ;;
  match early with
  | Some b => ret b
  | None => check_output abs_output_path
  end.

(** The opening lines (66-74); the result is [original_cwd]. *)
Definition announce (tool_name : string) : M string :=
  print ("Running command: " +:+ tool_name) ;;;
  original_cwd <- os.getcwd ;;
  print ("Original working directory: " +:+ original_cwd) ;;;
  conda_env <- get_conda_env ;;
  print ("Current conda environment: " +:+ conda_env) ;;;
  ret original_cwd.

Definition _run_subprocess_command (tool_name command abs_input_path abs_output_path : string)
    (verbose : bool) (config_file : option string) (timeout : option Z) : M bool :=
  original_cwd <- announce tool_name ;;
  let timeout := effective_timeout tool_name timeout in
  try_finally
    (try_except
       (guarded tool_name command abs_input_path abs_output_path config_file timeout)
       report_failure)
    (restore_cwd original_cwd).

(** The temporary file of the PQR pre-conversion (line 242). *)
Definition temp_pdb_path_of (abs_input_path : string) : string :=
  Str.replace ".pqr" "_temp.pdb" abs_input_path.

(** The pre-conversion of a PQR input for MGLTools (lines 240-257); the
    result is the input path the rest of [run_program] works with. *)
Definition convert_pqr_to_pdb (abs_input_path : string) : M string :=
  print "Detected PQR input file for MGLTools. Converting to PDB format first..." ;;;
  let temp_pdb_path := temp_pdb_path_of abs_input_path in
  let obabel_command :=
    "obabel -ipqr " +:+ abs_input_path +:+ " -opdb -O " +:+ temp_pdb_path in
  try_except
    (print ("Running conversion command: " +:+ obabel_command) ;;;
     result <- subprocess_run obabel_command None true ;;
     made <- os.path_exists temp_pdb_path ;;
     if made then
       shown <- get (λ w, os_path.relpath (cwd w) temp_pdb_path) ;;
       print ("Successfully converted PQR to PDB: " +:+ shown) ;;;
       ret temp_pdb_path
     else
       print "Warning: PQR to PDB conversion failed. Attempting to proceed with original PQR file." ;;;
       ret abs_input_path)
    (λ e,
       print ("Warning: PQR to PDB conversion failed: " +:+ exn_str e) ;;;
       print "Attempting to proceed with original PQR file." ;;;
       ret abs_input_path).

(** The removal of the temporary file (lines 273-278). *)
Definition remove_temp_pdb (temp_pdb_path : string) : M unit :=
  left <- os.path_exists temp_pdb_path ;;
  if left then
    try_except
      (os.remove temp_pdb_path ;;;
       shown <- get (λ w, os_path.relpath (cwd w) temp_pdb_path) ;;
       print ("Removed temporary PDB file: " +:+ shown))
      (λ e, print ("Warning: Failed to remove temporary PDB file: " +:+ exn_str e))
  else ret tt.

(** Lines 259-280 of [run_program]: the command is built and run on the
    effective input, and the temporary file of a pre-conversion is
    removed after the run has returned. *)
Definition build_and_run (tool_name effective_input abs_output_path : string)
    (pqr_for_mgltools : bool) (temp_pdb_path : string)
    (verbose : bool) (pH_value : pyfloat) (config_file : option string)
    (timeout : option Z) : M bool :=
  command <- construct_shell_command tool_name effective_input abs_output_path
               pH_value config_file ;;
  match command with
  | Some command' =>
      if Str.truthy command' then
        success <- _run_subprocess_command tool_name command' effective_input
                     abs_output_path verbose config_file timeout ;;
        (if pqr_for_mgltools then remove_temp_pdb temp_pdb_path else ret tt) ;;;
        ret success
      else raise (ValueError ("Failed to construct a valid command for " +:+ tool_name))
  | None => raise (ValueError ("Failed to construct a valid command for " +:+ tool_name))
  end.

(** What [run_program] does once the input is known to exist (lines
    236-280), on the absolute paths. *)
Definition run_validated (tool_name abs_input_path abs_output_path : string)
    (verbose : bool) (pH_value : pyfloat) (config_file : option string)
    (timeout : option Z) : M bool :=
  let input_ext := os_path.ext_of abs_input_path in
  let pqr_for_mgltools :=
    (String.eqb tool_name "MGLTools" && String.eqb input_ext "pqr")%bool in
  let temp_pdb_path := temp_pdb_path_of abs_input_path in
  effective_input <-
    (if pqr_for_mgltools then convert_pqr_to_pdb abs_input_path
     else ret abs_input_path) ;;
  build_and_run tool_name effective_input abs_output_path pqr_for_mgltools
    temp_pdb_path verbose pH_value config_file timeout.

Definition run_program (tool_name input_path output_path : string)
    (verbose : bool) (pH_value : pyfloat) (config_file : option string)
    (timeout : option Z) : M bool :=
  abs_input_path <- get (λ w, os_path.abspath (cwd w) input_path) ;;
  abs_output_path <- get (λ w, os_path.abspath (cwd w) output_path) ;;
  _check_if_file_exists abs_input_path ;;;
  run_validated tool_name abs_input_path abs_output_path verbose pH_value
    config_file timeout.

End subprocess_handler.

(** ** Frames: what a statement leaves alone

    [keeps R m] says that the world after [m] is related by [R] to the world
    before it, however [m] ends. *)

Definition keeps (R : relation world) {A} (m : M A) : Prop := ∀ w, R w (m w).2.

(** The relations that are framed. *)

(** No process was launched. *)
Definition no_launch : relation world := λ w w', spawned w' = spawned w.

(** Nothing but lines of output: the file system, the working directory
    and the launches are as before. *)
Definition only_prints : relation world :=
  λ w w', fs w' = fs w ∧ cwd w' = cwd w ∧ spawned w' = spawned w
          ∧ conda_default_env w' = conda_default_env w.

(** The launches since [w] all satisfy [Q]. *)
Definition launches (Q : spawn → Prop) : relation world :=
  λ w w', ∃ l, spawned w' = spawned w ++ l ∧ Forall Q l.

(** The working directory is as before. *)
Definition same_cwd : relation world := λ w w', cwd w' = cwd w.

Definition dir_at (f : gmap string node) (d : string) : Prop :=
  ∃ n, f !! d = Some n ∧ is_dir n = true.

(** The directory [d] is still there. *)
Definition dir_kept (d : string) : relation world :=
  λ w w', dir_at (fs w) d → dir_at (fs w') d.

(** The errors the check can end in. *)
Definition lookup_error (e : exn) : Prop :=
  match e with
  | FileNotFoundError _ | NotADirectoryError _ => True
  | _ => False
  end.

(** ** Vocabulary of the statements *)

(** The tool names [construct_shell_command] has a branch for. *)
Definition supported_tools : list string :=
  ["MGLTools"; "OpenBabel"; "MolProbity"; "PDB2PQR"].

(** The extensions that are keys of [format_map]. *)
Definition recognized_extensions : list string :=
  ["pdb"; "pqr"; "mol"; "mol2"; "sdf"; "xyz"; "pdbqt"; "cif"].

(** The launches between two worlds, the second a later state of the first. *)
Definition new_launches (w w' : world) : list spawn :=
  drop (List.length (spawned w)) (spawned w').

(** The lines printed between two worlds. *)
Definition new_lines (w w' : world) : list string :=
  drop (List.length (stdout w)) (stdout w').

(** A launch that was not checked and had no timeout. *)
Definition unchecked (s : spawn) : Prop := sp_check s = false ∧ sp_timeout s = None.

(** The platform never makes the directory [d] disappear. *)
Definition sh_keeps_dir (P : platform) (d : string) : Prop :=
  ∀ cmd t c f, dir_at f d → dir_at (sh P cmd t c f).2 d.

(** A checked launch ran under the timeout [t]. *)
Definition timed (t : Z) (s : spawn) : Prop :=
  sp_check s = true → sp_timeout s = Some t.

(** What the launch of [run_checked] comes to, from how the command ended
    and whether the output file is there afterwards. *)
Definition checked_result (tool_name command : string) (timeout : Z)
    (made : bool) (o : outcome) : result (option bool) :=
  match o with
  | Exited returncode output stderr =>
      if returncode =? 0 then Ok None
      else if (String.eqb tool_name "MolProbity" && made)%bool then Ok (Some true)
           else Raise (CalledProcessError command returncode output stderr)
  | TimedOut => Raise (TimeoutExpired command (Some timeout))
  | LaunchFailed msg => Raise (OtherError msg)
  end.

(** What [_run_subprocess_command] answers, from how the launch ended and
    whether the output file is there afterwards. *)
Definition executor_result (tool_name command : string) (timeout : Z)
    (made : bool) (o : outcome) : result bool :=
  match o with
  | Exited returncode output stderr =>
      if returncode =? 0 then Ok made
      else if (String.eqb tool_name "MolProbity" && made)%bool then Ok true
           else Raise (CalledProcessError command returncode output stderr)
  | TimedOut => Raise (TimeoutExpired command (Some timeout))
  | LaunchFailed msg => Raise (OtherError msg)
  end.

(** The line that announces the leniency for MolProbity (line 117). *)
Definition leniency_warning (tool_name : string) (returncode : Z) : string :=
  "Warning: " +:+ tool_name +:+ " returned non-zero exit code "
    +:+ pretty returncode +:+ " but output file was created".

(** The MGLTools command: [prepare_receptor4.py] under [pythonsh] in the
    conda environment, with [options] after [-A checkhydrogens]. *)
Definition receptor_command
    (mgl_env_name mgl_packages mgl_bin input_filename output_filename options : string)
  : string :=
  "conda run -n " +:+ mgl_env_name
    +:+ " --no-capture-output bash -c 'export PYTHONPATH="
    +:+ mgl_packages +:+ ":$PYTHONPATH && " +:+ os_path.join mgl_bin "pythonsh" +:+ " "
    +:+ os_path.join (os_path.join (os_path.join mgl_packages "AutoDockTools")
                                   "Utilities24") "prepare_receptor4.py"
    +:+ " -r " +:+ input_filename +:+ " -o " +:+ output_filename
    +:+ " -A checkhydrogens" +:+ options +:+ "'".

(** A checked launch ended with exit status 0. *)
Definition exited_zero (s : spawn) : Prop :=
  sp_check s = true → ∃ output stderr, sp_outcome s = Exited 0 output stderr.

(** ** A small installation to run the module on *)

Module Demo.

Local Open Scope string_scope.

Definition file : node := Node false 100.
Definition dir : node := Node true 4096.

Definition disk : gmap string node :=
  list_to_map
    [("/", dir); ("/work", dir); ("/data", dir); ("/etc", dir); ("/opt", dir);
     ("/data/rec.pqr", file); ("/data/rec.pdb", file); ("/data/lig.cif", file);
     ("/etc/dock.json", file);
     ("/opt/mgl", dir); ("/opt/mgl/bin", dir); ("/opt/mgl/bin/pythonsh", file);
     ("/opt/mgl/pkgs", dir); ("/opt/mgl/pkgs/AutoDockTools", dir);
     ("/opt/mgl/pkgs/AutoDockTools/Utilities24", dir);
     ("/opt/mgl/pkgs/AutoDockTools/Utilities24/prepare_receptor4.py", file);
     ("/opt/molprobity", dir); ("/opt/molprobity/bin", dir);
     ("/opt/molprobity/bin/reduce", file); ("/opt/molprobity/bin/probe", file)].

Definition config : gmap string string :=
  dict_display
    [("MGL_BIN", "/opt/mgl/bin"); ("MGL_PACKAGES", "/opt/mgl/pkgs");
     ("MGL_ENV_NAME", "mgl"); ("MOLPROBITY_BIN", "/opt/molprobity/bin")].

(** The converter writes the temporary PDB file, the receptor script
    fails, [reduce] writes its output and still exits with status 1, and
    every other command succeeds without writing anything. *)
Definition tools : platform :=
  Platform
    (λ cmd t c f,
       if String.prefix "obabel -ipqr" cmd
       then (Exited 0 "" "", <["/data/rec_temp.pdb" := file]> f)
       else if String.prefix "conda run" cmd
       then (Exited 1 "" "boom", f)
       else if String.prefix "/opt/molprobity/bin/reduce" cmd
       then (Exited 1 "" "", <["/data/recH.pdb" := file]> f)
       else (Exited 0 "" "", f))
    (λ p, if String.eqb p "/etc/dock.json" then inl config
          else inr "Expecting value: line 1 column 1 (char 0)")
    (λ _, None).

(** An installation without any of the tools: the shell finds no command. *)
Definition bare : platform :=
  Platform
    (λ cmd t c f, (Exited 127 "" "sh: 1: command not found", f))
    (λ p, if String.eqb p "/etc/dock.json" then inl config
          else inr "Expecting value: line 1 column 1 (char 0)")
    (λ _, None).

(** The interpreter starts in [/work], inside the conda environment
    [dock]; nothing has run or been printed yet. *)
Definition start : world := World disk "/work" (Some "dock") [] [].

End Demo.

(** ** Vocabulary of the further properties *)

(** What [get_conda_env] answers from the way its probe ended. *)
Definition probe_answer (o : outcome) : string :=
  match o with
  | Exited returncode output _ =>
      if ((returncode =? 0) && Str.truthy output)%bool
      then match Str.words output with
           | name :: _ => name
           | [] => "No conda environment detected"
           end
      else "No conda environment detected"
  | _ => "No conda environment detected"
  end.

(** ** More installations *)

Module Bench.

Local Open Scope string_scope.

(** An interpreter outside of any conda environment. *)
Definition outside_conda : world := World Demo.disk "/work" None [] [].

(** [conda info] marks the active environment with a star. *)
Definition with_conda : platform :=
  Platform
    (λ cmd t c f,
       if String.prefix "conda info" cmd
       then (Exited 0 "base                  *  /opt/conda" "", f)
       else (Exited 0 "" "", f))
    (λ p, inl Demo.config)
    (λ _, None).

(** A receptor whose extension is in upper case. *)
Definition upper_disk : gmap string node :=
  <["/data/REC.PQR" := Demo.file]> Demo.disk.

Definition upper_start : world := World upper_disk "/work" (Some "dock") [] [].

(** Every tool does its work: the converter writes after [-O], the
    receptor script writes [rec.pdbqt] next to the input, and everything
    exits with status 0. *)
Definition working : platform :=
  Platform
    (λ cmd t c f,
       if String.prefix "obabel -ipqr /data/REC.PQR" cmd
       then (Exited 0 "" "", <["/data/REC.PQR" := Node false 80]> f)
       else if String.prefix "obabel -ipqr /data/rec.pqr" cmd
       then (Exited 0 "" "", <["/data/rec_temp.pdb" := Demo.file]> f)
       else if String.prefix "conda run" cmd
       then (Exited 0 "" "", <["/data/rec.pdbqt" := Demo.file]> f)
       else (Exited 0 "" "", f))
    (λ p, inl Demo.config)
    (λ _, None).

(** Every command runs into its timeout. *)
Definition stalled : platform :=
  Platform (λ cmd t c f, (TimedOut, f)) (λ p, inl Demo.config) (λ _, None).

(** The receptor script removes the directory it runs in. *)
Definition wrecking : platform :=
  Platform
    (λ cmd t c f,
       if String.prefix "conda run" cmd
       then (Exited 0 "" "", delete c f)
       else (Exited 0 "" "", f))
    (λ p, inl Demo.config)
    (λ _, None).

(** A configuration file without any key. *)
Definition unconfigured : platform :=
  Platform (λ cmd t c f, (Exited 0 "" "", f)) (λ p, inl ∅) (λ _, None).

End Bench.

(** * Properties *)

(** ** The path functions on examples *)

Module os_path_examples.
Import os_path.
Local Open Scope string_scope.

Example basename_abs : basename "/data/in/rec.pqr" = "rec.pqr".
Proof. reflexivity. Qed.
Example dirname_abs : dirname "/data/in/rec.pqr" = "/data/in".
Proof. reflexivity. Qed.
Example dirname_root : dirname "/rec.pqr" = "/".
Proof. reflexivity. Qed.
Example dirname_bare : dirname "rec.pqr" = "".
Proof. reflexivity. Qed.
Example splitext_plain : splitext "/d.x/rec.PQR" = ("/d.x/rec", ".PQR").
Proof. reflexivity. Qed.
Example splitext_dotfile : splitext "/d.x/.bashrc" = ("/d.x/.bashrc", "").
Proof. reflexivity. Qed.
Example splitext_nodot : splitext "/d.x/rec" = ("/d.x/rec", "").
Proof. reflexivity. Qed.
Example ext_of_upper : ext_of "/d/rec.PQR" = "pqr".
Proof. reflexivity. Qed.
Example join_dir : join "/opt/mgl/bin" "pythonsh" = "/opt/mgl/bin/pythonsh".
Proof. reflexivity. Qed.
Example join_abs : join "/opt/mgl/bin" "/x" = "/x".
Proof. reflexivity. Qed.
Example normpath_dots : normpath "/a/./b/../c//d/" = "/a/c/d".
Proof. reflexivity. Qed.
Example normpath_rel : normpath "../a/.." = "..".
Proof. reflexivity. Qed.
Example abspath_rel : abspath "/work" "in/rec.pdb" = "/work/in/rec.pdb".
Proof. reflexivity. Qed.
Example relpath_below : relpath "/work" "/work/in/rec.pdb" = "in/rec.pdb".
Proof. reflexivity. Qed.
Example relpath_up : relpath "/work/a" "/work/in/rec.pdb" = "../in/rec.pdb".
Proof. reflexivity. Qed.
Example replace_ext : Str.replace ".pqr" "_temp.pdb" "/d/rec.pqr" = "/d/rec_temp.pdb".
Proof. reflexivity. Qed.
Example replace_every : Str.replace ".pqr" "_temp.pdb" "/a.pqr/b.pqr" = "/a_temp.pdb/b_temp.pdb".
Proof. reflexivity. Qed.
Example replace_case : Str.replace ".pqr" "_temp.pdb" "/d/rec.PQR" = "/d/rec.PQR".
Proof. reflexivity. Qed.
Example words_conda : Str.words "  base  *  /opt/conda " = ["base"; "*"; "/opt/conda"].
Proof. reflexivity. Qed.
End os_path_examples.

(** ** Frames

    For a preorder [R], [keeps R] is preserved by sequencing and by the
    exception combinators. *)

Section frames.

Context (R : relation world) `{!PreOrder R}.

Lemma keeps_ret {A} (a : A) : keeps R (ret a).
Proof. intros w. reflexivity. Qed.

Lemma keeps_raise {A} (e : exn) : keeps R (@raise A e).
Proof. intros w. reflexivity. Qed.

Lemma keeps_get {A} (f : world → A) : keeps R (get f).
Proof. intros w. reflexivity. Qed.

Lemma keeps_bind {A B} (m : M A) (k : A → M B) :
  keeps R m → (∀ a, keeps R (k a)) → keeps R (bind m k).
Proof.
  intros Hm Hk w. unfold bind. specialize (Hm w).
  destruct (m w) as [[a|e] w1]; cbn in *; [|done].
  etrans; [exact Hm|apply Hk].
Qed.

Lemma keeps_try_except {A} (m : M A) (h : exn → M A) :
  keeps R m → (∀ e, keeps R (h e)) → keeps R (try_except m h).
Proof.
  intros Hm Hh w. unfold try_except. specialize (Hm w).
  destruct (m w) as [[a|e] w1]; cbn in *; [done|].
  etrans; [exact Hm|apply Hh].
Qed.

Lemma keeps_try_finally {A} (m : M A) (f : M unit) :
  keeps R m → keeps R f → keeps R (try_finally m f).
Proof.
  intros Hm Hf w. unfold try_finally. specialize (Hm w).
  destruct (m w) as [r w1]; cbn in *. specialize (Hf w1).
  destruct (f w1) as [[[]|e] w2]; cbn in *; by etrans.
Qed.

Lemma keeps_for_each {A} (l : list A) (body : A → M unit) :
  (∀ x, keeps R (body x)) → keeps R (for_each l body).
Proof.
  intros Hb. induction l as [|x l IH]; cbn.
  - apply keeps_ret.
  - apply keeps_bind; [apply Hb|done].
Qed.

End frames.

Lemma keeps_weaken (R R' : relation world) {A} (m : M A) :
  (∀ w w', R w w' → R' w w') → keeps R m → keeps R' m.
Proof. intros HR Hm w. apply HR, Hm. Qed.


#[local] Instance no_launch_preorder : PreOrder no_launch.
Proof. split; [intros x; reflexivity|]. intros x y z. unfold no_launch. congruence. Qed.

#[local] Instance only_prints_preorder : PreOrder only_prints.
Proof.
  split; [intros x; by unfold only_prints|].
  intros x y z (A1&A2&A3&A4) (B1&B2&B3&B4).
  unfold only_prints. repeat split; congruence.
Qed.

#[local] Instance launches_preorder Q : PreOrder (launches Q).
Proof.
  split.
  - intros w. exists []. by rewrite app_nil_r.
  - intros x y z (l1&H1&F1) (l2&H2&F2). exists (l1 ++ l2). split.
    + by rewrite H2, H1, app_assoc.
    + by apply Forall_app.
Qed.

#[local] Instance same_cwd_preorder : PreOrder same_cwd.
Proof. split; [intros x; reflexivity|]. intros x y z. unfold same_cwd. congruence. Qed.

#[local] Instance dir_kept_preorder d : PreOrder (dir_kept d).
Proof. split; [by intros x H|]. intros x y z H1 H2 H. by apply H2, H1. Qed.

Lemma only_prints_no_launch w w' : only_prints w w' → no_launch w w'.
Proof. by intros (?&?&?&?). Qed.

Lemma only_prints_same_cwd w w' : only_prints w w' → same_cwd w w'.
Proof. by intros (?&?&?&?). Qed.

Lemma only_prints_dir_kept d w w' : only_prints w w' → dir_kept d w w'.
Proof. intros (Hf&_&_&_) Hd. unfold dir_at. by rewrite Hf. Qed.

Lemma no_launch_launches Q w w' : no_launch w w' → launches Q w w'.
Proof. intros Hn. exists []. by rewrite app_nil_r. Qed.

Create HintDb frames discriminated.

Ltac frame_step :=
  lazymatch goal with
  | |- keeps ?R (ret _) => apply (keeps_ret R)
  | |- keeps ?R (raise _) => apply (keeps_raise R)
  | |- keeps ?R (get _) => apply (keeps_get R)
  | |- keeps ?R (bind _ _) => apply (keeps_bind R); [|intros ?]
  | |- keeps ?R (try_except _ _) => apply (keeps_try_except R); [|intros ?]
  | |- keeps ?R (try_finally _ _) => apply (keeps_try_finally R)
  | |- keeps ?R (for_each _ _) => apply (keeps_for_each R); intros ?
  | |- keeps _ (let _ := _ in _) => cbv zeta
  | |- keeps _ (match ?x with _ => _ end) => destruct x
  | |- keeps _ _ => solve [eauto with frames]
  end.

Ltac frame := repeat frame_step.

(** *** Statements that only print *)

Lemma print_only_prints line : keeps only_prints (print line).
Proof. by intros w. Qed.

Lemma listdir_only_prints d : keeps only_prints (os.listdir d).
Proof.
  intros w. unfold os.listdir.
  destruct (os.stat w d) as [n|]; [destruct (is_dir n)|]; by cbn.
Qed.

Lemma getsize_only_prints p : keeps only_prints (os.getsize p).
Proof. intros w. unfold os.getsize. by destruct (os.stat w p). Qed.

#[local] Hint Resolve print_only_prints listdir_only_prints getsize_only_prints : frames.

Lemma path_exists_only_prints p : keeps only_prints (os.path_exists p).
Proof. apply (keeps_get only_prints). Qed.

Lemma getcwd_only_prints : keeps only_prints os.getcwd.
Proof.
  intros w. unfold os.getcwd.
  destruct (fs w !! cwd w) as [n|]; [destruct (is_dir n)|]; by cbn.
Qed.

(** In a directory that is there [os.getcwd] answers, and changes nothing. *)
Lemma getcwd_ok w : dir_at (fs w) (cwd w) → os.getcwd w = (Ok (cwd w), w).
Proof. intros (n&Hn&Hd). unfold os.getcwd. by rewrite Hn, Hd. Qed.

Lemma environ_get_only_prints : keeps only_prints os.environ_get_CONDA_DEFAULT_ENV.
Proof. apply (keeps_get only_prints). Qed.

#[local] Hint Resolve path_exists_only_prints getcwd_only_prints
  environ_get_only_prints : frames.

Section only_prints.

Context (P : platform).

Lemma check_if_file_exists_only_prints p : keeps only_prints (_check_if_file_exists p).
Proof. unfold _check_if_file_exists. frame. Qed.

Lemma get_env_vars_only_prints c : keeps only_prints (get_env_vars P c).
Proof. unfold get_env_vars. frame. Qed.

Lemma getitem_only_prints m k : keeps only_prints (getitem m k).
Proof. unfold getitem. frame. Qed.

Hint Resolve check_if_file_exists_only_prints get_env_vars_only_prints
  getitem_only_prints : frames.

Lemma construct_shell_command_only_prints tool i o pH c :
  keeps only_prints (construct_shell_command P tool i o pH c).
Proof. unfold construct_shell_command. frame. Qed.

Lemma check_output_only_prints o : keeps only_prints (check_output o).
Proof. unfold check_output. frame. Qed.

Lemma report_failure_only_prints e : keeps only_prints (report_failure P e).
Proof. unfold report_failure. frame. Qed.

End only_prints.

#[local] Hint Resolve check_if_file_exists_only_prints get_env_vars_only_prints
  getitem_only_prints construct_shell_command_only_prints
  check_output_only_prints report_failure_only_prints : frames.

(** ** Running a statement step by step *)

Lemma bind_ok {A B} (m : M A) (k : A → M B) w a w1 :
  m w = (Ok a, w1) → bind m k w = k a w1.
Proof. intros E. unfold bind. by rewrite E. Qed.

Lemma bind_raise {A B} (m : M A) (k : A → M B) w e w1 :
  m w = (Raise e, w1) → bind m k w = (Raise e, w1).
Proof. intros E. unfold bind. by rewrite E. Qed.

Lemma stat_add_line w line p : os.stat (add_line line w) p = os.stat w p.
Proof. done. Qed.

Lemma path_exists_true w p :
  is_Some (os.stat w p) → os.path_exists p w = (Ok true, w).
Proof. intros E. unfold os.path_exists, get. by rewrite bool_decide_eq_true_2. Qed.

Lemma path_exists_false w p :
  os.stat w p = None → os.path_exists p w = (Ok false, w).
Proof.
  intros E. unfold os.path_exists, get. rewrite bool_decide_eq_false_2; [done|].
  rewrite E. by intros [? ?].
Qed.

Lemma for_each_print_ok {A} (l : list A) (f : A → string) w :
  ∃ w', for_each l (λ x, print (f x)) w = (Ok tt, w') ∧ only_prints w w'.
Proof.
  revert w. induction l as [|x l IH]; intros w; cbn.
  - by exists w.
  - destruct (IH (add_line (f x) w)) as (w'&E&F). exists w'. split; [done|].
    destruct F as (?&?&?&?). by repeat split.
Qed.

(** An existing path passes the check and nothing is printed. *)
Lemma check_if_file_exists_found w p :
  is_Some (os.stat w p) → _check_if_file_exists p w = (Ok true, w).
Proof.
  intros E. unfold _check_if_file_exists.
  by rewrite (bind_ok _ _ _ _ _ (path_exists_true _ _ E)).
Qed.


(** A missing path always ends the check with an exception. *)
Lemma check_if_file_exists_missing w p :
  os.stat w p = None →
  ∃ e w', _check_if_file_exists p w = (Raise e, w') ∧ lookup_error e.
Proof.
  intros E. unfold _check_if_file_exists.
  rewrite (bind_ok _ _ _ _ _ (path_exists_false _ _ E)). cbn [negb].
  set (directory := if Str.truthy (os_path.dirname p) then _ else _).
  unfold bind at 1. unfold print at 1, modify. unfold bind at 1.
  unfold print at 1, modify. unfold bind at 1.
  set (w2 := add_line _ (add_line _ w)).
  unfold os.listdir at 1.
  destruct (os.stat w2 directory) as [n|]; [destruct (is_dir n)|].
  - edestruct (for_each_print_ok
      (os_path.basename <$>
         filter (λ k, os_path.dirname k = os_path.abspath (cwd w2) directory
                      ∧ k ≠ os_path.abspath (cwd w2) directory)
                (map_to_list (fs w2)).*1)
      (λ file, "  - " +:+ file) w2) as (w3&E3&_).
    rewrite (bind_ok _ _ _ _ _ E3). by eexists _, _.
  - by eexists _, _.
  - by eexists _, _.
Qed.

(** ** Command construction *)

Lemma format_map_lookup e :
  format_map !! e =
    if decide (e ∈ recognized_extensions) then Some e else None.
Proof.
  unfold format_map, dict_display, recognized_extensions. cbn [foldl fst snd].
  repeat (rewrite lookup_insert; case_decide;
          [subst e; first [done | by vm_compute]|]).
  rewrite lookup_empty. rewrite decide_False; [done|].
  intros Hin. repeat (apply elem_of_cons in Hin as [->|Hin]; [done|]).
  by apply elem_of_nil in Hin.
Qed.

(** An extension has no format code exactly when it is not in the table. *)
Lemma format_map_None e :
  format_map !! e = None ↔ e ∉ recognized_extensions.
Proof. rewrite format_map_lookup. by case_decide. Qed.

Lemma construct_shell_command_OpenBabel P i o pH cfg w :
  construct_shell_command P "OpenBabel" i o pH cfg w =
    (Ok (Some ("obabel -i" +:+ format_optional (format_map !! os_path.ext_of i)
                 +:+ " " +:+ i +:+ " -o"
                 +:+ format_optional (format_map !! os_path.ext_of o)
                 +:+ " -O " +:+ o)), w).
Proof. reflexivity. Qed.

Lemma construct_shell_command_unsupported P tool i o pH cfg w :
  tool ∉ supported_tools →
  construct_shell_command P tool i o pH cfg w = (Ok None, w).
Proof.
  unfold supported_tools. rewrite !elem_of_cons, elem_of_nil. intros Hn.
  unfold construct_shell_command.
  repeat match goal with
         | |- context [String.eqb tool ?s] =>
             destruct (String.eqb_spec tool s) as [->|_];
             [exfalso; apply Hn; repeat (first [left; reflexivity | right])|]
         end.
  done.
Qed.

(** C9: for PDB2PQR the command carries the pH the caller gave as
    [--with-ph p], next to the fixed force field [--ff AMBER] and the fixed
    titration method [--titration-state-method propka]; on
    [("PDB2PQR", "a.pdb", "a.pqr", 6.5)] it contains [--with-ph 6.5]. *)
Theorem construct_shell_command_PDB2PQR P i o pH cfg w :
  (∃ command,
     construct_shell_command P "PDB2PQR" i o pH cfg w = (Ok (Some command), w)
     ∧ Str.occurs ("--with-ph " +:+ float_repr pH) command
     ∧ Str.occurs "--ff AMBER" command
     ∧ Str.occurs "--titration-state-method propka" command)
  ∧ (∃ command,
       construct_shell_command P "PDB2PQR" "a.pdb" "a.pqr" (PyFloat "6.5") cfg w
         = (Ok (Some command), w)
       ∧ Str.occurs "--with-ph 6.5" command).
Proof.
  split.
  - eexists. split; [reflexivity|]. split; [|split].
    + by exists "pdb2pqr30 --ff AMBER --keep-chain --titration-state-method propka "%string,
        (" " +:+ i +:+ " " +:+ o).
    + by exists "pdb2pqr30 "%string,
        (" --keep-chain --titration-state-method propka --with-ph "
           +:+ float_repr pH +:+ " " +:+ i +:+ " " +:+ o).
    + by exists "pdb2pqr30 --ff AMBER --keep-chain "%string,
        (" --with-ph " +:+ float_repr pH +:+ " " +:+ i +:+ " " +:+ o).
  - eexists. split; [reflexivity|].
    by exists "pdb2pqr30 --ff AMBER --keep-chain --titration-state-method propka "%string,
      " a.pdb a.pqr"%string.
Qed.

(** C2: the table is a dict display with the key [cif] twice, and the later
    item wins: the format code of a [.cif] path is [cif], not [mmcif]. *)
Theorem format_code_of_cif P pH cfg w :
  format_map !! "cif" = Some "cif"
  ∧ construct_shell_command P "OpenBabel" "/data/lig.cif" "/data/lig.pdb" pH cfg w
      = (Ok (Some "obabel -icif /data/lig.cif -opdb -O /data/lig.pdb"), w)
  ∧ construct_shell_command P "OpenBabel" "/data/rec.pdb" "/data/rec.cif" pH cfg w
      = (Ok (Some "obabel -ipdb /data/rec.pdb -ocif -O /data/rec.cif"), w).
Proof. split; [by vm_compute|]. split; by vm_compute. Qed.

(** ** The existence check of [run_program] *)

Lemma run_program_unfold P tool i o v pH cfg t w :
  run_program P tool i o v pH cfg t w =
    bind (_check_if_file_exists (os_path.abspath (cwd w) i))
         (λ _, run_validated P tool (os_path.abspath (cwd w) i)
                 (os_path.abspath (cwd w) o) v pH cfg t) w.
Proof. reflexivity. Qed.

(** When the absolute input path names nothing, [run_program] ends in the
    error of the check and has only printed. *)
Lemma run_program_missing P tool i o v pH cfg t w :
  os.stat w (os_path.abspath (cwd w) i) = None →
  ∃ e w', run_program P tool i o v pH cfg t w = (Raise e, w')
          ∧ lookup_error e ∧ only_prints w w'.
Proof.
  intros E. rewrite run_program_unfold.
  destruct (check_if_file_exists_missing w _ E) as (e&w'&Ec&He).
  exists e, w'. rewrite (bind_raise _ _ _ _ _ Ec). split; [done|]. split; [done|].
  pose proof (check_if_file_exists_only_prints (os_path.abspath (cwd w) i) w) as F.
  by rewrite Ec in F.
Qed.

Lemma unsupported_not_MGLTools tool :
  tool ∉ supported_tools → String.eqb tool "MGLTools" = false.
Proof.
  intros Hn. destruct (String.eqb_spec tool "MGLTools") as [->|]; [|done].
  exfalso. apply Hn. unfold supported_tools. apply elem_of_cons. by left.
Qed.

(** C7, as the code has it: for a tool name outside the four supported
    ones no command is built and no process is launched; when the input
    file exists [run_program] fails with the "failed to construct a valid
    command" error, and when it does not exist the call has already failed
    in the check of the input. *)
Theorem unsupported_tool_fails P tool input output v pH cfg t w :
  tool ∉ supported_tools →
  let abs_input_path := os_path.abspath (cwd w) input in
  let res := run_program P tool input output v pH cfg t w in
  (∀ i o, construct_shell_command P tool i o pH cfg w = (Ok None, w))
  ∧ (∃ e, res.1 = Raise e)
  ∧ spawned res.2 = spawned w
  ∧ (is_Some (os.stat w abs_input_path) →
     res = (Raise (ValueError ("Failed to construct a valid command for " +:+ tool)), w))
  ∧ (os.stat w abs_input_path = None → ∃ e, res.1 = Raise e ∧ lookup_error e).
Proof.
  intros Hn abs_input_path res.
  assert (is_Some (os.stat w abs_input_path) →
          res = (Raise (ValueError ("Failed to construct a valid command for " +:+ tool)), w))
    as Hfound.
  { intros E. unfold res. rewrite run_program_unfold.
    rewrite (bind_ok _ _ _ _ _ (check_if_file_exists_found _ _ E)).
    unfold run_validated. rewrite (unsupported_not_MGLTools _ Hn). cbn [andb].
    rewrite (bind_ok _ _ _ _ _ (eq_refl : ret _ w = (Ok _, w))).
    unfold build_and_run.
    by rewrite (bind_ok _ _ _ _ _
                  (construct_shell_command_unsupported P tool _ _ pH cfg w Hn)). }
  assert (os.stat w abs_input_path = None →
          ∃ e w', res = (Raise e, w') ∧ lookup_error e ∧ only_prints w w')
    as Hmissing by apply run_program_missing.
  split; [intros i o; by apply construct_shell_command_unsupported|].
  destruct (os.stat w abs_input_path) as [n|] eqn:E.
  - rewrite Hfound by eauto. cbn. split; [by eexists|]. by repeat split.
  - destruct Hmissing as (e&w'&->&He&Hp); [done|]. cbn.
    split; [by eexists|]. split; [apply Hp|]. split; [by intros [? ?]|].
    intros _. by exists e.
Qed.

Lemma unsupported_tool_fails_witness :
  ("Vina" ∉ supported_tools)
  ∧ run_program Demo.tools "Vina" "/data/rec.pdb" "/data/rec.pdbqt" true
      (PyFloat "7.4") None None Demo.start
    = (Raise (ValueError "Failed to construct a valid command for Vina"), Demo.start).
Proof.
  assert ("Vina" ∉ supported_tools) as Hn by compute_done.
  split; [exact Hn|].
  apply (unsupported_tool_fails Demo.tools "Vina" "/data/rec.pdb" "/data/rec.pdbqt"
           true (PyFloat "7.4") None None Demo.start Hn).
  vm_compute. by eexists.
Defined.

(** C7 as stated fails on a missing input: the error is the one of the
    input check, not the one for an unsupported tool. *)
Lemma unsupported_tool_missing_input :
  ("Vina" ∉ supported_tools)
  ∧ (run_program Demo.tools "Vina" "/data/ghost.pdb" "/data/ghost.pdbqt" true
       (PyFloat "7.4") None None Demo.start).1
    = Raise (FileNotFoundError "Input file not found: /data/ghost.pdb")
  ∧ ¬ ∃ msg,
        (run_program Demo.tools "Vina" "/data/ghost.pdb" "/data/ghost.pdbqt" true
           (PyFloat "7.4") None None Demo.start).1 = Raise (ValueError msg).
Proof.
  assert ((run_program Demo.tools "Vina" "/data/ghost.pdb" "/data/ghost.pdbqt" true
             (PyFloat "7.4") None None Demo.start).1
          = Raise (FileNotFoundError "Input file not found: /data/ghost.pdb")) as E
    by (by vm_compute).
  split; [compute_done|]. split; [exact E|].
  intros [msg Hm]. rewrite E in Hm. discriminate.
Qed.

(** C6 on two inputs that do not exist.  Below a regular file the listing
    of the containing directory, which the check prints before it raises,
    raises first, and with another error.  The empty path is made absolute
    before the check, where it becomes the working directory, which exists:
    the call goes on and launches the tool on that directory. *)
Theorem missing_input_escapes_check :
  os.stat Demo.start "/data/rec.pdb/chainA.pdb" = None
  ∧ run_program Demo.tools "OpenBabel" "/data/rec.pdb/chainA.pdb" "/data/out.pdb"
      true (PyFloat "7.4") None None Demo.start
    = (Raise (NotADirectoryError "[Errno 20] Not a directory: '/data/rec.pdb'"),
       World Demo.disk "/work" (Some "dock") []
         ["⚠️ WARNING: Input file not found at: /data/rec.pdb/chainA.pdb";
          "Contents of directory /data/rec.pdb:"])
  ∧ os.stat Demo.start "" = None
  ∧ (run_program Demo.tools "PDB2PQR" "" "/data/out.pqr"
       true (PyFloat "7.4") None None Demo.start).1 = Ok false
  ∧ spawned (run_program Demo.tools "PDB2PQR" "" "/data/out.pqr"
               true (PyFloat "7.4") None None Demo.start).2
    = [Spawn "pdb2pqr30 --ff AMBER --keep-chain --titration-state-method propka --with-ph 7.4 /work /data/out.pqr"
         (Some 1800) true "/work" (Exited 0 "" "")].
Proof. repeat split; by vm_compute. Qed.

(** ** Frames of the statements that act on the world *)

Lemma only_prints_keeps_no_launch {A} (m : M A) :
  keeps only_prints m → keeps no_launch m.
Proof. apply keeps_weaken, only_prints_no_launch. Qed.

Lemma only_prints_keeps_same_cwd {A} (m : M A) :
  keeps only_prints m → keeps same_cwd m.
Proof. apply keeps_weaken, only_prints_same_cwd. Qed.

Lemma only_prints_keeps_dir_kept d {A} (m : M A) :
  keeps only_prints m → keeps (dir_kept d) m.
Proof. apply keeps_weaken, only_prints_dir_kept. Qed.

Lemma no_launch_keeps_launches Q {A} (m : M A) :
  keeps no_launch m → keeps (launches Q) m.
Proof. apply keeps_weaken, no_launch_launches. Qed.

Lemma only_prints_keeps_launches Q {A} (m : M A) :
  keeps only_prints m → keeps (launches Q) m.
Proof. intros H. by apply no_launch_keeps_launches, only_prints_keeps_no_launch. Qed.

Lemma chdir_no_launch d : keeps no_launch (os.chdir d).
Proof.
  intros w. unfold os.chdir.
  destruct (os.stat w d) as [n|]; [destruct (is_dir n)|]; by cbn.
Qed.

Lemma chdir_dir_kept d' d : keeps (dir_kept d') (os.chdir d).
Proof.
  intros w. unfold os.chdir, dir_kept.
  destruct (os.stat w d) as [n|]; [destruct (is_dir n)|]; by cbn.
Qed.

Lemma remove_no_launch p : keeps no_launch (os.remove p).
Proof.
  intros w. unfold os.remove.
  destruct (os.stat w p) as [n|]; [destruct (is_dir n)|]; by cbn.
Qed.

Lemma remove_same_cwd p : keeps same_cwd (os.remove p).
Proof.
  intros w. unfold os.remove.
  destruct (os.stat w p) as [n|]; [destruct (is_dir n)|]; by cbn.
Qed.

Lemma subprocess_run_same_cwd P c t chk : keeps same_cwd (subprocess_run P c t chk).
Proof.
  intros w. unfold subprocess_run.
  destruct (sh P c t (cwd w) (fs w)) as [[rc out err| |msg] f'];
    [destruct (chk && negb (rc =? 0))%bool|..]; by cbn.
Qed.

Lemma subprocess_run_launches P (Q : spawn → Prop) c t chk :
  (∀ d o, Q (Spawn c t chk d o)) → keeps (launches Q) (subprocess_run P c t chk).
Proof.
  intros HQ w. unfold subprocess_run.
  destruct (sh P c t (cwd w) (fs w)) as [o f'].
  exists [Spawn c t chk (cwd w) o]. split; [|by apply Forall_singleton].
  destruct o as [rc out err| |msg]; [destruct (chk && negb (rc =? 0))%bool|..]; by cbn.
Qed.

Lemma subprocess_run_dir_kept P d c t chk :
  sh_keeps_dir P d → keeps (dir_kept d) (subprocess_run P c t chk).
Proof.
  intros HP w Hd. unfold subprocess_run.
  specialize (HP c t (cwd w) (fs w) Hd). revert HP.
  destruct (sh P c t (cwd w) (fs w)) as [[rc out err| |msg] f'];
    [destruct (chk && negb (rc =? 0))%bool|..]; by cbn.
Qed.

#[local] Hint Resolve chdir_no_launch chdir_dir_kept remove_no_launch remove_same_cwd
  subprocess_run_same_cwd subprocess_run_dir_kept : frames.
#[local] Hint Resolve only_prints_keeps_no_launch only_prints_keeps_same_cwd
  only_prints_keeps_dir_kept no_launch_keeps_launches | 10 : frames.

(** *** The conda probe and the announcement *)

Lemma unchecked_probe c o : unchecked (Spawn conda_probe None false c o).
Proof. done. Qed.

Lemma get_conda_env_ok P w : ∃ name w1, get_conda_env P w = (Ok name, w1).
Proof.
  unfold get_conda_env. cbv beta iota zeta delta [bind get os.environ_get_CONDA_DEFAULT_ENV].
  assert (∀ w, ∃ name w1,
            try_except
              (bind (subprocess_run P conda_probe None false)
                 (λ result,
                    if ((cp_returncode result =? 0) && Str.truthy (cp_stdout result))%bool
                    then match Str.words (cp_stdout result) with
                         | name :: _ => ret name
                         | [] => raise (OtherError "list index out of range")
                         end
                    else ret "No conda environment detected"%string))
              (λ _, ret "No conda environment detected"%string) w = (Ok name, w1)) as Halt.
  { clear w. intros w. unfold try_except, bind.
    destruct (subprocess_run P conda_probe None false w) as [[result|e] w1]; [|by eexists _, _].
    destruct ((cp_returncode result =? 0) && Str.truthy (cp_stdout result))%bool;
      [|by eexists _, _].
    destruct (Str.words (cp_stdout result)); by eexists _, _. }
  destruct (conda_default_env w) as [name|]; [|apply Halt].
  destruct (Str.truthy name); [by eexists _, _|apply Halt].
Qed.

Section executor_frames.

Context (P : platform).

Lemma get_conda_env_same_cwd : keeps same_cwd (get_conda_env P).
Proof. unfold get_conda_env. frame. Qed.

Lemma get_conda_env_unchecked : keeps (launches unchecked) (get_conda_env P).
Proof.
  unfold get_conda_env. frame.
  all: try (apply subprocess_run_launches; intros; apply unchecked_probe).
  all: apply no_launch_keeps_launches; frame.
Qed.

Lemma get_conda_env_dir_kept d : sh_keeps_dir P d → keeps (dir_kept d) (get_conda_env P).
Proof. intros HP. unfold get_conda_env. frame. Qed.

Hint Resolve get_conda_env_same_cwd get_conda_env_unchecked get_conda_env_dir_kept : frames.

Lemma announce_ok tool w :
  dir_at (fs w) (cwd w) → ∃ w1, announce P tool w = (Ok (cwd w), w1).
Proof.
  intros Hd. unfold announce.
  unfold bind at 1, print at 1, modify.
  rewrite (bind_ok _ _ _ _ _ (getcwd_ok (add_line ("Running command: " +:+ tool) w) Hd)).
  cbv beta iota zeta delta [bind get print modify].
  cbn [cwd add_line].
  destruct (get_conda_env_ok P
              (add_line ("Original working directory: " +:+ cwd w)
                 (add_line ("Running command: " +:+ tool) w))) as (name&w1&->).
  by eexists.
Qed.

Lemma announce_same_cwd tool : keeps same_cwd (announce P tool).
Proof. unfold announce. frame. Qed.

Lemma announce_unchecked tool : keeps (launches unchecked) (announce P tool).
Proof. unfold announce. frame. all: apply only_prints_keeps_launches; frame. Qed.

Lemma announce_dir_kept tool d : sh_keeps_dir P d → keeps (dir_kept d) (announce P tool).
Proof. intros HP. unfold announce. frame. Qed.

End executor_frames.

(** *** The launch, the check of the output and the handlers *)

Lemma stat_same_files w w' p :
  fs w' = fs w → cwd w' = cwd w → os.stat w' p = os.stat w p.
Proof. intros Hf Hc. unfold os.stat. by rewrite Hf, Hc. Qed.

Lemma stat_only_prints w w' p : only_prints w w' → os.stat w' p = os.stat w p.
Proof. intros (Hf&Hc&_&_). by apply stat_same_files. Qed.

(** The launch of [run_checked]: one checked launch under the timeout is
    recorded, and the result is read off its outcome. *)
Lemma run_checked_spec P tool cmd o t w :
  ∃ oc w2,
    run_checked P tool cmd o t w
      = (checked_result tool cmd t (bool_decide (is_Some (os.stat w2 o))) oc, w2)
    ∧ spawned w2 = spawned w ++ [Spawn cmd (Some t) true (cwd w) oc]
    ∧ cwd w2 = cwd w
    ∧ sh P cmd (Some t) (cwd w) (fs w) = (oc, fs w2)
    ∧ (∀ rc out err,
         oc = Exited rc out err → rc ≠ 0 →
         checked_result tool cmd t (bool_decide (is_Some (os.stat w2 o))) oc
           = Ok (Some true) →
         last (stdout w2) = Some (leniency_warning tool rc)).
Proof.
  unfold run_checked.
  cbv beta iota zeta delta [bind ret raise get modify print try_except subprocess_run].
  cbn [cwd fs add_line set_fs add_spawn spawned stdout].
  destruct (sh P cmd (Some t) (cwd w) (fs w)) as [oc f'] eqn:Esh.
  exists oc.
  destruct oc as [rc out err| |msg]; cbn [andb checked_result].
  - destruct (rc =? 0) eqn:Erc; cbn [negb].
    + eexists. repeat split; done.
    + destruct (String.eqb tool "MolProbity"); cbn [andb].
      * unfold os.path_exists, get. cbn [add_line].
        match goal with
        | |- context [bool_decide (is_Some (os.stat ?w' o))] =>
            destruct (bool_decide (is_Some (os.stat w' o))) eqn:Emade
        end.
        -- match goal with |- ∃ w2, (_, ?W) = _ ∧ _ => exists W end.
           split; [|repeat split; try done].
           ++ unfold os.stat in *.
              cbn [fs cwd add_line set_fs add_spawn] in *. by rewrite Emade.
           ++ intros ? ? ? [= <- _ _] _ _. cbn [stdout add_line]. apply last_snoc.
        -- match goal with |- ∃ w2, (_, ?W) = _ ∧ _ => exists W end.
           split; [|repeat split; try done].
           ++ unfold os.stat in *.
              cbn [fs cwd add_line set_fs add_spawn] in *. by rewrite Emade.
           ++ intros ? ? ? _ _. unfold os.stat in *.
              cbn [fs cwd add_line set_fs add_spawn] in *. by rewrite Emade.
      * eexists. repeat split; try done.
  - eexists. repeat split; try done.
  - eexists. repeat split; try done.
Qed.

Lemma check_output_spec o w :
  ∃ w2, check_output o w = (Ok (bool_decide (is_Some (os.stat w o))), w2)
        ∧ only_prints w w2.
Proof.
  unfold check_output.
  destruct (os.stat w o) as [n|] eqn:E.
  - rewrite (bind_ok _ _ _ _ _ (path_exists_true w o (ltac:(by rewrite E)))).
    cbv beta iota zeta delta [bind ret get modify print].
    unfold os.getsize. rewrite stat_add_line, E.
    rewrite bool_decide_eq_true_2 by eauto. by eexists.
  - rewrite (bind_ok _ _ _ _ _ (path_exists_false w o E)).
    rewrite bool_decide_eq_false_2 by (by intros [? ?]). by eexists.
Qed.

Lemma report_failure_raises P e w :
  ∃ w2, report_failure P e w = (Raise e, w2) ∧ only_prints w w2.
Proof.
  unfold report_failure.
  destruct e; try (by eexists).
  cbv beta iota zeta delta [bind ret raise get modify print].
  destruct (Str.truthy output), (Str.truthy stderr); by eexists.
Qed.

Lemma restore_cwd_same original_cwd w :
  cwd w = original_cwd → dir_at (fs w) (cwd w) →
  restore_cwd original_cwd w = (Ok tt, w).
Proof.
  intros <- Hd. unfold restore_cwd.
  rewrite (bind_ok _ _ _ _ _ (getcwd_ok w Hd)). by rewrite String.eqb_refl.
Qed.

(** *** A directory that stays *)

Section working_directory.

Context (P : platform) (d : string) (HP : sh_keeps_dir P d).

Lemma run_checked_dir_kept tool cmd o t : keeps (dir_kept d) (run_checked P tool cmd o t).
Proof using HP. unfold run_checked. frame. Qed.

Lemma launch_command_dir_kept tool cmd i o cfg :
  keeps (dir_kept d) (launch_command P tool cmd i o cfg).
Proof. unfold launch_command. frame. Qed.

Hint Resolve run_checked_dir_kept launch_command_dir_kept : frames.

Lemma guarded_dir_kept tool cmd i o cfg t :
  keeps (dir_kept d) (try_except (guarded P tool cmd i o cfg t) (report_failure P)).
Proof using HP. unfold guarded. frame. Qed.

Lemma launched_dir_kept tool cmd o t :
  keeps (dir_kept d)
    (try_except
       (bind (run_checked P tool cmd o t)
          (λ early, match early with Some b => ret b | None => check_output o end))
       (report_failure P)).
Proof using HP. frame. Qed.

End working_directory.

Lemma dir_at_insert_ne f k n d : k ≠ d → dir_at f d → dir_at (<[k := n]> f) d.
Proof. intros Hne (m&Hm&Hd). exists m. by rewrite lookup_insert_ne. Qed.

(** The commands of the demonstration only write two files. *)
Lemma demo_tools_keep_dir d :
  d ≠ "/data/rec_temp.pdb"%string → d ≠ "/data/recH.pdb"%string →
  sh_keeps_dir Demo.tools d.
Proof.
  intros H1 H2 cmd t c f Hd. unfold Demo.tools. cbn [sh].
  repeat match goal with
         | |- context [if ?b then _ else _] => destruct b
         end; cbn [snd]; try done; by apply dir_at_insert_ne.
Qed.

Lemma demo_bare_keeps_dir d : sh_keeps_dir Demo.bare d.
Proof. by intros cmd t c f Hd. Qed.

(** *** The executor on a tool that stays in its directory *)

(** Around a body that ends in the original directory, the handlers and
    the [finally] clause only print: the result is the one of the body. *)
Lemma handlers_pass_result P (body : M bool) original_cwd w r w1 :
  body w = (r, w1) → cwd w1 = original_cwd → dir_at (fs w1) (cwd w1) →
  ∃ w2, try_finally (try_except body (report_failure P)) (restore_cwd original_cwd) w
          = (r, w2)
        ∧ only_prints w1 w2
        ∧ (∀ b, r = Ok b → w2 = w1).
Proof.
  intros Eb Hc Hd. unfold try_finally, try_except. rewrite Eb.
  destruct r as [b|e].
  - rewrite (restore_cwd_same _ _ Hc Hd). by exists w1.
  - destruct (report_failure_raises P e w1) as (w2&->&Hp).
    pose proof Hp as (Hf2&Hc2&_).
    assert (dir_at (fs w2) (cwd w2)) as Hd2 by (by rewrite Hf2, Hc2).
    rewrite (restore_cwd_same original_cwd w2 ltac:(congruence) Hd2). by exists w2.
Qed.

Lemma guarded_plain P tool cmd i o cfg t w :
  tool ≠ "MGLTools" →
  ∃ oc w2,
    guarded P tool cmd i o cfg t w
      = (executor_result tool cmd t (bool_decide (is_Some (os.stat w2 o))) oc, w2)
    ∧ spawned w2 = spawned w ++ [Spawn cmd (Some t) true (cwd w) oc]
    ∧ cwd w2 = cwd w
    ∧ sh P cmd (Some t) (cwd w) (fs w) = (oc, fs w2)
    ∧ (∀ rc out err,
         oc = Exited rc out err → rc ≠ 0 →
         executor_result tool cmd t (bool_decide (is_Some (os.stat w2 o))) oc = Ok true →
         last (stdout w2) = Some (leniency_warning tool rc)).
Proof.
  intros Hne. unfold guarded, launch_command.
  destruct (String.eqb_spec tool "MGLTools") as [|_]; [done|].
  rewrite (bind_ok (ret cmd) _ w cmd w eq_refl).
  destruct (run_checked_spec P tool cmd o t w) as (oc&w2&E2&Hs&Hc&Hsh&Hwarn).
  exists oc.
  destruct (checked_result tool cmd t (bool_decide (is_Some (os.stat w2 o))) oc)
    as [[b|]|e] eqn:Er.
  - (* the early [return True] *)
    rewrite (bind_ok _ _ _ _ _ E2). exists w2.
    assert (b = true) as ->.
    { revert Er. unfold checked_result.
      destruct oc as [rc out err| |msg]; [|done..].
      destruct (rc =? 0); [done|].
      destruct (String.eqb tool "MolProbity" && _)%bool; [|done]. congruence. }
    split; [|repeat split; try done].
    + unfold ret. f_equal. revert Er. unfold checked_result, executor_result.
      destruct oc as [rc out err| |msg]; [|done..].
      destruct (rc =? 0); [done|].
      by destruct (String.eqb tool "MolProbity" && _)%bool.
    + intros rc out err Hoc Hrc _. by apply (Hwarn rc out err).
  - (* the launch succeeded: the output is checked *)
    rewrite (bind_ok _ _ _ _ _ E2).
    destruct (check_output_spec o w2) as (w3&E3&Hp). exists w3.
    pose proof Hp as (Hf&Hc3&Hs3&_).
    rewrite E3, (stat_only_prints _ _ _ Hp), Hs3, Hc3, Hf.
    assert (∃ out err, oc = Exited 0 out err) as (out0&err0&->).
    { revert Er. unfold checked_result.
      destruct oc as [rc out err| |msg]; [|done..].
      destruct (Z.eqb_spec rc 0) as [->|]; [by eexists _, _|].
      by destruct (String.eqb tool "MolProbity" && _)%bool. }
    split; [done|]. repeat split; try done.
    intros rc out err [= <- _ _] Hrc. lia.
  - rewrite (bind_raise _ _ _ _ _ E2). exists w2.
    assert (executor_result tool cmd t (bool_decide (is_Some (os.stat w2 o))) oc = Raise e)
      as Hr.
    { revert Er. unfold checked_result, executor_result.
      destruct oc as [rc out err| |msg]; [|congruence..].
      destruct (rc =? 0); [done|].
      destruct (String.eqb tool "MolProbity" && _)%bool; [done|]. congruence. }
    rewrite Hr. repeat split; try done.
Qed.

(** For every tool but MGLTools the executor, called in a directory that
    is there and stays, launches the command it was given, in that
    directory and under the timeout it settled on; its answer is read off
    the outcome of that launch. *)
Lemma executor_plain P tool cmd i o v cfg timeout w :
  tool ≠ "MGLTools" →
  dir_at (fs w) (cwd w) → sh_keeps_dir P (cwd w) →
  let t := effective_timeout tool timeout in
  let res := _run_subprocess_command P tool cmd i o v cfg timeout w in
  ∃ oc l,
    spawned res.2 = spawned w ++ l ++ [Spawn cmd (Some t) true (cwd w) oc]
    ∧ Forall unchecked l
    ∧ cwd res.2 = cwd w
    ∧ res.1 = executor_result tool cmd t (bool_decide (is_Some (os.stat res.2 o))) oc
    ∧ (∀ rc out err,
         oc = Exited rc out err → rc ≠ 0 → res.1 = Ok true →
         last (stdout res.2) = Some (leniency_warning tool rc)).
Proof.
  intros Hne Hd HP t res.
  destruct (announce_ok P tool w Hd) as [w1 E1].
  pose proof (announce_same_cwd P tool w) as Hc1. rewrite E1 in Hc1.
  destruct (announce_unchecked P tool w) as (l&Hl&Fl). rewrite E1 in Hl.
  pose proof (announce_dir_kept P tool (cwd w) HP w Hd) as Hd1. rewrite E1 in Hd1.
  unfold same_cwd in Hc1. cbn [snd] in Hc1, Hl, Hd1.
  destruct (guarded_plain P tool cmd i o cfg t w1 Hne) as (oc&w2&E2&Hs2&Hc2&Hsh&Hwarn).
  assert (dir_at (fs w2) (cwd w2)) as Hd2.
  { rewrite Hc2, Hc1. pose proof (HP cmd (Some t) (cwd w1) (fs w1) Hd1) as Hk.
    by rewrite Hsh in Hk. }
  destruct (handlers_pass_result P _ (cwd w) w1 _ w2 E2 ltac:(congruence) Hd2)
    as (w3&E3&Hp&Hsame).
  assert (res = (executor_result tool cmd t (bool_decide (is_Some (os.stat w2 o))) oc, w3))
    as ->.
  { unfold res, _run_subprocess_command. by rewrite (bind_ok _ _ _ _ _ E1). }
  pose proof Hp as (Hf&Hc3&Hs3&_). cbn [fst snd].
  exists oc, l. rewrite (stat_only_prints _ _ _ Hp), Hs3, Hs2, Hl, Hc3, Hc2, Hc1.
  rewrite <- app_assoc. repeat split; try done.
  intros rc out err Hoc Hrc Hres. rewrite (Hsame true Hres). by apply (Hwarn rc out err).
Qed.

(** ** The timeout *)

Lemma unchecked_timed t s : unchecked s → timed t s.
Proof. intros [Hc _] Ht. congruence. Qed.

Lemma launches_mono (Q Q' : spawn → Prop) w w' :
  (∀ s, Q s → Q' s) → launches Q w w' → launches Q' w w'.
Proof. intros HQ (l&Hl&Fl). exists l. split; [done|]. by eapply Forall_impl. Qed.

Section timeout.

Context (P : platform).

Lemma run_checked_timed tool cmd o t :
  keeps (launches (timed t)) (run_checked P tool cmd o t).
Proof.
  unfold run_checked. frame.
  all: try (apply subprocess_run_launches; by intros).
  all: apply only_prints_keeps_launches; frame.
Qed.

Lemma launch_command_no_launch tool cmd i o cfg :
  keeps no_launch (launch_command P tool cmd i o cfg).
Proof. unfold launch_command. frame. Qed.

Lemma restore_cwd_no_launch d : keeps no_launch (restore_cwd d).
Proof. unfold restore_cwd. frame. Qed.

Hint Resolve run_checked_timed launch_command_no_launch restore_cwd_no_launch : frames.

Lemma run_subprocess_command_timed tool cmd i o v cfg timeout :
  keeps (launches (timed (effective_timeout tool timeout)))
    (_run_subprocess_command P tool cmd i o v cfg timeout).
Proof.
  unfold _run_subprocess_command, guarded. frame.
  eapply keeps_weaken; [|apply announce_unchecked].
  intros w w'. apply launches_mono, unchecked_timed.
Qed.

End timeout.


(** ** A non-zero exit status *)

Lemma bind_inv_ok {A B} (m : M A) (k : A → M B) w b w' :
  bind m k w = (Ok b, w') → ∃ a w1, m w = (Ok a, w1) ∧ k a w1 = (Ok b, w').
Proof.
  unfold bind. destruct (m w) as [[a|e] w1]; [|done]. intros E. by exists a, w1.
Qed.

Lemma try_finally_inv_ok {A} (m : M A) (f : M unit) w a w' :
  try_finally m f w = (Ok a, w') → ∃ w1, m w = (Ok a, w1) ∧ f w1 = (Ok tt, w').
Proof.
  unfold try_finally. destruct (m w) as [r w1].
  destruct (f w1) as [[[]|e] w2] eqn:Ef; [|done]. intros [= -> ->]. by exists w1.
Qed.

(** With the handlers of the executor around it, only a body that
    returned lets the whole return. *)
Lemma handled_inv_ok P (body : M bool) w b w' :
  try_except body (report_failure P) w = (Ok b, w') → body w = (Ok b, w').
Proof.
  unfold try_except. destruct (body w) as [[b'|e] w1]; [done|].
  destruct (report_failure_raises P e w1) as (w2&->&_). done.
Qed.

(** When the executor returns for a tool other than MolProbity, every
    checked launch it made ended with exit status 0. *)
Lemma executor_returns_exited_zero P tool cmd i o v cfg timeout w b :
  tool ≠ "MolProbity" →
  (_run_subprocess_command P tool cmd i o v cfg timeout w).1 = Ok b →
  launches exited_zero w (_run_subprocess_command P tool cmd i o v cfg timeout w).2.
Proof.
  intros Hne.
  destruct (_run_subprocess_command P tool cmd i o v cfg timeout w) as [r w4] eqn:E.
  cbn [fst snd]. intros ->.
  unfold _run_subprocess_command in E.
  apply bind_inv_ok in E as (orig&w1&E1&E).
  apply try_finally_inv_ok in E as (w3&E&Ef).
  apply handled_inv_ok in E. unfold guarded in E.
  apply bind_inv_ok in E as (cmd'&w2&E2&E).
  apply bind_inv_ok in E as (early&w2'&E3&E).
  (* the announcement *)
  pose proof (announce_unchecked P tool w) as H1. rewrite E1 in H1. cbn [snd] in H1.
  apply (launches_mono _ exited_zero) in H1;
    [|intros s [Hc _] Hs; congruence].
  (* the command to launch *)
  pose proof (launch_command_no_launch P tool cmd i o cfg w1) as H2.
  rewrite E2 in H2. cbn [snd] in H2. apply (no_launch_launches exited_zero) in H2.
  (* the launch *)
  destruct (run_checked_spec P tool cmd' o (effective_timeout tool timeout) w2)
    as (oc&w2''&E3'&Hs&_&_&_).
  rewrite E3 in E3'. injection E3' as Hres <-.
  assert (launches exited_zero w2 w2') as H3.
  { exists [Spawn cmd' (Some (effective_timeout tool timeout)) true (cwd w2) oc].
    split; [done|]. apply Forall_singleton. intros _. cbn [sp_outcome].
    revert Hres. unfold checked_result.
    destruct oc as [rc out err| |msg]; [|done..].
    destruct (Z.eqb_spec rc 0) as [->|]; [by eexists _, _|].
    destruct (String.eqb_spec tool "MolProbity"); [done|]. by cbn [andb]. }
  (* the check of the output and the [finally] clause *)
  assert (launches exited_zero w2' w3) as H4.
  { apply no_launch_launches. destruct early as [b'|].
    - by injection E as _ <-.
    - pose proof (check_output_only_prints o w2') as Hp. rewrite E in Hp.
      by apply only_prints_no_launch. }
  pose proof (restore_cwd_no_launch orig w3) as H5. rewrite Ef in H5. cbn [snd] in H5.
  apply (no_launch_launches exited_zero) in H5.
  by repeat (etrans; [eassumption|]).
Qed.




(** ** The working directory *)

Lemma isabs_truthy p : os_path.isabs p = true → Str.truthy p = true.
Proof. by destruct p. Qed.

Lemma try_except_bind {A B} (m : M A) (k : A → M B) (h : exn → M B) w :
  try_except (bind m k) h w
  = match m w with
    | (Ok a, w1) => try_except (k a) h w1
    | (Raise e, w1) => h e w1
    end.
Proof. unfold try_except, bind. by destruct (m w) as [[a|e] w1]. Qed.

(** The announcement answers with the directory of the call, and only in
    a directory that is there. *)
Lemma announce_inv P tool w original_cwd w1 :
  announce P tool w = (Ok original_cwd, w1) →
  original_cwd = cwd w ∧ dir_at (fs w) (cwd w).
Proof.
  unfold announce. unfold bind at 1, print at 1, modify.
  intros E. apply bind_inv_ok in E as (d&w0&E0&E).
  revert E0. unfold os.getcwd. cbn [fs cwd add_line].
  destruct (fs w !! cwd w) as [n|] eqn:En; [|done].
  destruct (is_dir n) eqn:Ed; [|done]. intros [= <- <-].
  apply bind_inv_ok in E as ([]&w2&_&E).
  apply bind_inv_ok in E as (name&w3&_&E).
  apply bind_inv_ok in E as ([]&w4&_&E).
  injection E as <- _. split; [done|]. by exists n.
Qed.

(** Everything after the choice of the command stays in the directory. *)
Lemma launched_same_cwd P tool cmd o t :
  keeps same_cwd
    (try_except
       (bind (run_checked P tool cmd o t)
          (λ early, match early with Some b => ret b | None => check_output o end))
       (report_failure P)).
Proof. unfold run_checked. frame. Qed.

(** The choice of the command does not touch the files, and the only
    directory it may change into is the directory of the input, for
    MGLTools. *)
Lemma launch_command_cwd P tool cmd i o cfg w :
  let w' := (launch_command P tool cmd i o cfg w).2 in
  let input_dir := os_path.abspath (cwd w) (os_path.dirname i) in
  fs w' = fs w
  ∧ (cwd w' = cwd w
     ∨ tool = "MGLTools"%string ∧ cwd w' = input_dir ∧ dir_at (fs w) input_dir).
Proof.
  intros w' input_dir. unfold w', launch_command.
  destruct (String.eqb_spec tool "MGLTools") as [->|_]; [|by split; [|left]].
  cbv zeta.
  match goal with
  | |- context [bind _ (λ _, ?k)] =>
      assert (∀ w0, only_prints w0 (k w0).2) as Ht by (intros w0; revert w0; fold (keeps only_prints k); frame);
      generalize dependent k
  end.
  intros tail Ht.
  destruct (Str.truthy (os_path.dirname i)) eqn:Etr;
    cbv beta iota zeta delta [bind print modify ret os.chdir os.stat];
    cbn [fs cwd add_line]; rewrite ?Etr; fold input_dir.
  - destruct (fs w !! input_dir) as [n|] eqn:En; [destruct (is_dir n) eqn:Ed|].
    + match goal with |- context [tail ?w0] => destruct (Ht w0) as (Hf&Hc&_) end.
      rewrite Hf, Hc. split; [done|]. right. split; [done|]. split; [done|].
      by exists n.
    + by split; [|left].
    + by split; [|left].
  - match goal with |- context [tail ?w0] => destruct (Ht w0) as (Hf&Hc&_) end.
    rewrite Hf, Hc. by split; [|left].
Qed.

(** The [finally] clause in the directory of the call does not leave it,
    also when that directory is gone. *)
Lemma restore_cwd_stays original_cwd w :
  cwd w = original_cwd → cwd (restore_cwd original_cwd w).2 = cwd w.
Proof.
  intros <-. unfold restore_cwd, bind, os.getcwd.
  destruct (fs w !! cwd w) as [n|]; [destruct (is_dir n)|]; [|done..].
  by rewrite String.eqb_refl.
Qed.

(** The [finally] clause brings the interpreter back into a directory that
    is still there, from a directory that is still there. *)
Lemma restore_cwd_back original_cwd w :
  os_path.isabs original_cwd = true →
  os_path.normpath original_cwd = original_cwd →
  dir_at (fs w) original_cwd →
  dir_at (fs w) (cwd w) →
  ∃ w', restore_cwd original_cwd w = (Ok tt, w') ∧ cwd w' = original_cwd.
Proof.
  intros Habs Hnorm (n&Hn&Hd) Hcur. unfold restore_cwd.
  rewrite (bind_ok _ _ _ _ _ (getcwd_ok w Hcur)).
  destruct (String.eqb_spec (cwd w) original_cwd) as [E|_]; cbn [negb].
  - by exists w.
  - unfold os.chdir, os.stat, os_path.abspath.
    rewrite (isabs_truthy _ Habs), Habs, Hnorm, Hn, Hd. by eexists.
Qed.

(** The body of the outer [try] and its handlers end in a directory that
    is there, when neither the directory of the call nor, for MGLTools,
    the directory of the input is removed by a launched command. *)
Lemma guarded_lands P tool cmd i o cfg t w :
  let w' := (try_except (guarded P tool cmd i o cfg t) (report_failure P) w).2 in
  dir_at (fs w) (cwd w) →
  sh_keeps_dir P (cwd w) →
  (tool = "MGLTools"%string →
   sh_keeps_dir P (os_path.abspath (cwd w) (os_path.dirname i))) →
  dir_at (fs w') (cwd w').
Proof.
  intros w' Hd HP HPi. unfold w', guarded. rewrite try_except_bind.
  destruct (launch_command_cwd P tool cmd i o cfg w) as [Hf Hc].
  destruct (launch_command P tool cmd i o cfg w) as [[c|e] w1]; cbn [snd] in Hf, Hc.
  - assert (dir_at (fs w1) (cwd w1) ∧ sh_keeps_dir P (cwd w1)) as [Hd1 HP1].
    { rewrite Hf. destruct Hc as [->|(Ht&->&Hi)]; [done|]. split; [done|by apply HPi]. }
    pose proof (launched_same_cwd P tool c o t w1) as Hc2.
    pose proof (launched_dir_kept P (cwd w1) HP1 tool c o t w1 Hd1) as Hd2.
    unfold same_cwd in Hc2. by rewrite Hc2.
  - destruct (report_failure_raises P e w1) as (w2&->&Hf2&Hc2&_). cbn [snd].
    rewrite Hf2, Hc2, Hf. by destruct Hc as [->|(_&->&Hi)].
Qed.

(** C5: the executor leaves the interpreter in the directory it was called
    in, whatever the outcome of the call (a value or any exception).  A
    tool other than MGLTools never leaves that directory.  For MGLTools,
    with its change into the directory of the input, the [finally] clause
    changes back when the surroundings let it: the working directory of
    the call is an absolute, normalised path of a directory that is there,
    and no launched command removes that directory or the directory of the
    input, where the [finally] clause asks for the working directory. *)
Theorem working_directory_restored P tool cmd i o v cfg timeout w :
  let res := _run_subprocess_command P tool cmd i o v cfg timeout w in
  (tool ≠ "MGLTools" → cwd res.2 = cwd w)
  ∧ (os_path.isabs (cwd w) = true →
     os_path.normpath (cwd w) = cwd w →
     dir_at (fs w) (cwd w) →
     sh_keeps_dir P (cwd w) →
     (tool = "MGLTools"%string →
      sh_keeps_dir P (os_path.abspath (cwd w) (os_path.dirname i))) →
     cwd res.2 = cwd w).
Proof.
  intros res. split.
  { intros Hne. unfold res, _run_subprocess_command, bind.
    pose proof (announce_same_cwd P tool w) as Hc1. unfold same_cwd in Hc1.
    destruct (announce P tool w) as [[original_cwd|e] w1] eqn:E1; [|done].
    apply announce_inv in E1 as [-> _]. cbn [snd] in Hc1.
    unfold try_finally.
    assert (cwd (try_except (guarded P tool cmd i o cfg (effective_timeout tool timeout))
                   (report_failure P) w1).2 = cwd w1) as Hc2.
    { unfold guarded. rewrite try_except_bind.
      destruct (launch_command_cwd P tool cmd i o cfg w1) as [_ Hc].
      destruct (launch_command P tool cmd i o cfg w1) as [[c|e] w2]; cbn [snd] in Hc.
      - rewrite (launched_same_cwd P tool c o (effective_timeout tool timeout) w2).
        by destruct Hc as [->|[? _]].
      - destruct (report_failure_raises P e w2) as (w3&->&_&Hc3&_). cbn [snd].
        rewrite Hc3. by destruct Hc as [->|[? _]]. }
    destruct (try_except _ _ w1) as [r w2]. cbn [snd] in Hc2.
    pose proof (restore_cwd_stays (cwd w) w2 ltac:(congruence)) as Hc3.
    destruct (restore_cwd (cwd w) w2) as [[[]|e] w3]; cbn [snd] in *; congruence. }
  intros Habs Hnorm Hdir HP HPi. unfold res.
  destruct (announce_ok P tool w Hdir) as [w1 E1].
  pose proof (announce_dir_kept P tool (cwd w) HP w Hdir) as Hd1.
  pose proof (announce_same_cwd P tool w) as Hc1.
  rewrite E1 in Hd1, Hc1. unfold same_cwd in Hc1. cbn [snd] in Hd1, Hc1.
  unfold _run_subprocess_command. rewrite (bind_ok _ _ _ _ _ E1).
  unfold try_finally.
  pose proof (guarded_dir_kept P (cwd w) HP tool cmd i o cfg
                (effective_timeout tool timeout) w1 Hd1) as Hd2.
  pose proof (guarded_lands P tool cmd i o cfg (effective_timeout tool timeout) w1) as Hl.
  cbv zeta in Hl. rewrite Hc1 in Hl. specialize (Hl Hd1 HP HPi).
  destruct (try_except _ _ w1) as [r w2]. cbn [snd] in Hd2, Hl.
  destruct (restore_cwd_back (cwd w) w2 Habs Hnorm Hd2 Hl) as (w3&->&Hc).
  done.
Qed.

Lemma working_directory_restored_witness :
  let cmd := "prepare_receptor4.py -r /data/rec.pdb -o /data/rec.pdbqt"%string in
  let res := _run_subprocess_command Demo.tools "MGLTools" cmd "/data/rec.pdb"
               "/data/rec.pdbqt" true (Some "/etc/dock.json"%string) None Demo.start in
  dir_at (fs Demo.start) (cwd Demo.start)
  ∧ sh_keeps_dir Demo.tools (cwd Demo.start)
  ∧ sh_keeps_dir Demo.tools
      (os_path.abspath (cwd Demo.start) (os_path.dirname "/data/rec.pdb"))
  ∧ (∃ e s, res.1 = Raise e ∧ last (spawned res.2) = Some s ∧ sp_cwd s = "/data"%string)
  ∧ cwd res.2 = "/work"%string.
Proof.
  intros cmd res.
  assert (dir_at (fs Demo.start) (cwd Demo.start)) as Hd
    by (exists Demo.dir; by vm_compute).
  assert (sh_keeps_dir Demo.tools (cwd Demo.start)) as HP
    by (by apply demo_tools_keep_dir).
  assert (os_path.abspath (cwd Demo.start) (os_path.dirname "/data/rec.pdb")
          = "/data"%string) as Ei by (by vm_compute).
  assert (sh_keeps_dir Demo.tools
            (os_path.abspath (cwd Demo.start) (os_path.dirname "/data/rec.pdb"))) as HPi
    by (rewrite Ei; by apply demo_tools_keep_dir).
  split; [exact Hd|]. split; [exact HP|]. split; [exact HPi|].
  split; [vm_compute; by eexists _, _|].
  exact (proj2 (working_directory_restored Demo.tools "MGLTools" cmd "/data/rec.pdb"
                  "/data/rec.pdbqt" true (Some "/etc/dock.json"%string) None Demo.start)
           eq_refl eq_refl Hd HP (λ _, HPi)).
Defined.

(** ** Formats without a code *)

Lemma format_optional_unrecognized e :
  e ∉ recognized_extensions → format_optional (format_map !! e) = "None"%string.
Proof. intros He. by rewrite (proj2 (format_map_None e) He). Qed.

Lemma string_app_assoc (s1 s2 s3 : string) : (s1 +:+ s2) +:+ s3 = s1 +:+ s2 +:+ s3.
Proof. induction s1 as [|a s1 IH]; [done|]. exact (f_equal (String a) IH). Qed.

Lemma string_app_empty_r (s : string) : s +:+ "" = s.
Proof. induction s as [|a s IH]; [done|]. exact (f_equal (String a) IH). Qed.

Lemma bind_ret_tail {A} (m : M A) w :
  bind m (λ a, bind (ret tt) (λ _, ret a)) w = m w.
Proof. unfold bind. by destruct (m w) as [[a|e] w']. Qed.



(** ** The last component of a path *)

Lemma substring_full s : String.substring 0 (String.length s) s = s.
Proof. induction s as [|a s IH]; [done|]. cbn. by rewrite IH. Qed.

Lemma substring_app_skip s1 s2 n m :
  String.substring (String.length s1 + n) m (s1 +:+ s2) = String.substring n m s2.
Proof. induction s1 as [|a s1 IH]; [done|]. exact IH. Qed.

Lemma string_length_app (s1 s2 : string) :
  String.length (s1 +:+ s2) = (String.length s1 + String.length s2)%nat.
Proof. induction s1 as [|a s1 IH]; [done|]. cbn. by rewrite <- IH. Qed.

Lemma rfind_from_app c s1 s2 i acc :
  Str.rfind_from c (s1 +:+ s2) i acc
  = Str.rfind_from c s2 (i + Z.of_nat (String.length s1)) (Str.rfind_from c s1 i acc).
Proof.
  revert i acc. induction s1 as [|a s1 IH]; intros i acc.
  - cbn. by rewrite Z.add_0_r.
  - change (Str.rfind_from c (String a s1 +:+ s2) i acc)
      with (Str.rfind_from c (s1 +:+ s2) (i + 1) (if Ascii.eqb a c then i else acc)).
    rewrite IH. cbn [String.length Str.rfind_from]. f_equal. lia.
Qed.

(** The last occurrence: either there is none, or the string splits at it. *)
Lemma rfind_from_cases c s i acc :
  (Str.rfind_from c s i acc = acc ∧ ∀ j acc', Str.rfind_from c s j acc' = acc')
  ∨ ∃ pre post, s = pre +:+ String c post
                ∧ Str.rfind_from c s i acc = i + Z.of_nat (String.length pre)
                ∧ ∀ j acc', Str.rfind_from c post j acc' = acc'.
Proof.
  revert i acc. induction s as [|a s IH]; intros i acc.
  - by left.
  - cbn [Str.rfind_from].
    destruct (IH (i + 1) (if Ascii.eqb a c then i else acc)) as [[E Hfree]|(pre&post&->&E&Hfree)].
    + destruct (Ascii.eqb_spec a c) as [->|Hne].
      * right. exists ""%string, s. split; [done|]. split; [cbn; lia|done].
      * left. split; [done|]. intros j acc'. cbn [Str.rfind_from].
        destruct (Ascii.eqb_spec a c); [done|]. apply Hfree.
    + right. exists (String a pre), post. split; [done|]. split; [|done].
      rewrite E. cbn [String.length]. lia.
Qed.

Lemma rfind_from_split c pre post j acc :
  (∀ j acc', Str.rfind_from c post j acc' = acc') →
  Str.rfind_from c (pre +:+ String c post) j acc = j + Z.of_nat (String.length pre).
Proof.
  intros Hfree. rewrite rfind_from_app. cbn [Str.rfind_from].
  by rewrite Ascii.eqb_refl, Hfree.
Qed.

(** The last component of a path: what follows the last slash. *)
Lemma basename_cases p :
  (os_path.basename p = p ∧ Str.rfind os_path.sep p = -1)
  ∨ ∃ pre post, p = (pre +:+ "/") +:+ post
                ∧ os_path.basename p = post
                ∧ Str.rfind os_path.sep p = Z.of_nat (String.length pre)
                ∧ ∀ j acc', Str.rfind_from os_path.sep post j acc' = acc'.
Proof.
  unfold os_path.basename, Str.rfind, Str.slice_from.
  destruct (rfind_from_cases os_path.sep p 0 (-1)) as [[E _]|(pre&post&->&E&Hfree)].
  - left. rewrite E. split; [|done]. cbn [Z.add Z.opp Z.to_nat].
    by rewrite Nat.sub_0_r, substring_full.
  - right. exists pre, post. rewrite E.
    assert (pre +:+ String os_path.sep post = (pre +:+ "/") +:+ post) as ->.
    { by rewrite string_app_assoc. }
    split; [done|]. split; [|split; [lia|done]].
    replace (Z.to_nat (0 + Z.of_nat (String.length pre) + 1))
      with (String.length (pre +:+ "/") + 0)%nat
      by (rewrite string_length_app; cbn [String.length]; lia).
    rewrite substring_app_skip, string_length_app.
    replace (String.length (pre +:+ "/") + String.length post
             - (String.length (pre +:+ "/") + 0))%nat
      with (String.length post) by lia.
    apply substring_full.
Qed.

Lemma isabs_basename p : os_path.isabs (os_path.basename p) = false.
Proof.
  assert (∀ j acc', Str.rfind_from os_path.sep (os_path.basename p) j acc' = acc') as Hfree.
  { destruct (basename_cases p) as [[-> E]|(pre&post&_&->&_&Hfree)]; [|done].
    destruct (rfind_from_cases os_path.sep p 0 (-1)) as [[_ Hfree]|(pre&post&_&E'&_)];
      [done|].
    unfold Str.rfind in E. lia. }
  destruct (os_path.basename p) as [|a r]; [done|].
  unfold os_path.isabs, Str.startswith. cbn [String.prefix].
  destruct (ascii_dec "/" a) as [<-|]; [|done].
  specialize (Hfree 0 (-1)). cbn [Str.rfind_from] in Hfree.
  change (Ascii.eqb "/" os_path.sep) with true in Hfree. cbv iota in Hfree.
  destruct (rfind_from_cases os_path.sep r (0 + 1) 0) as [[E _]|(pre&post&_&E&_)]; lia.
Qed.

Lemma splitext_basename p :
  (os_path.splitext (os_path.basename p)).2 = (os_path.splitext p).2.
Proof.
  destruct (basename_cases p) as [[-> _]|(pre&post&Hp&Hb&Hsep&Hfree)]; [done|].
  rewrite Hb. unfold os_path.splitext. rewrite Hsep.
  assert (Str.rfind os_path.sep post = -1) as -> by apply Hfree.
  assert (Str.rfind os_path.extsep p
          = Str.rfind_from os_path.extsep post
              (Z.of_nat (String.length (pre +:+ "/")))
              (Str.rfind_from os_path.extsep pre 0 (-1))) as Hdot.
  { unfold Str.rfind. rewrite Hp, rfind_from_app, rfind_from_app. done. }
  rewrite Hdot. clear Hdot.
  destruct (rfind_from_cases os_path.extsep post 0 (-1))
    as [[_ Hnodot]|(pre1&post1&Hpost&_&Hnodot)].
  - (* no dot in the last component *)
    unfold Str.rfind. rewrite !Hnodot. cbv zeta.
    assert ((Z.of_nat (String.length pre) <? Str.rfind_from os_path.extsep pre 0 (-1))
            = false) as ->.
    { apply Z.ltb_ge.
      destruct (rfind_from_cases os_path.extsep pre 0 (-1)) as [[-> _]|(a&b&->&->&_)];
        [lia|].
      rewrite string_length_app. lia. }
    done.
  - unfold Str.rfind. rewrite Hpost, !rfind_from_split by done. cbv zeta.
    assert ((Z.of_nat (String.length pre)
             <? Z.of_nat (String.length (pre +:+ "/")) + Z.of_nat (String.length pre1))
            = true)
      as -> by (apply Z.ltb_lt; rewrite string_length_app; cbn [String.length]; lia).
    assert ((-1 <? 0 + Z.of_nat (String.length pre1)) = true) as ->
      by (apply Z.ltb_lt; lia).
    rewrite !andb_true_l.
    assert (Str.slice (Z.of_nat (String.length pre) + 1)
              (Z.of_nat (String.length (pre +:+ "/")) + Z.of_nat (String.length pre1)) p
            = Str.slice (-1 + 1) (0 + Z.of_nat (String.length pre1))
                (pre1 +:+ String os_path.extsep post1)) as ->.
    { unfold Str.slice. rewrite Hp, Hpost.
      replace (Z.to_nat (Z.of_nat (String.length pre) + 1))
        with (String.length (pre +:+ "/") + 0)%nat
        by (rewrite string_length_app; cbn [String.length]; lia).
      rewrite substring_app_skip. f_equal; rewrite ?string_length_app; cbn [String.length]; lia. }
    assert (Str.slice_from
              (Z.of_nat (String.length (pre +:+ "/")) + Z.of_nat (String.length pre1)) p
            = Str.slice_from (0 + Z.of_nat (String.length pre1))
                (pre1 +:+ String os_path.extsep post1)) as ->.
    { unfold Str.slice_from. rewrite Hp, Hpost.
      replace (Z.to_nat (Z.of_nat (String.length (pre +:+ "/"))
                         + Z.of_nat (String.length pre1)))
        with (String.length (pre +:+ "/") + String.length pre1)%nat by lia.
      rewrite substring_app_skip. f_equal; rewrite ?string_length_app; lia. }
    by destruct (existsb _ _).
Qed.

Lemma ext_of_basename p : os_path.ext_of (os_path.basename p) = os_path.ext_of p.
Proof. unfold os_path.ext_of. by rewrite splitext_basename. Qed.

(** ** The pre-conversion of a PQR input *)

(** [convert_pqr_to_pdb] in closed form: one launch of the converter without
    a timeout, and a result that depends on how it ended and on whether
    the temporary file is there. *)
Lemma convert_pqr_to_pdb_unfold P i w :
  let temp := temp_pdb_path_of i in
  let obabel_command := "obabel -ipqr " +:+ i +:+ " -opdb -O " +:+ temp in
  let launch := sh P obabel_command None (cwd w) (fs w) in
  let w1 :=
    set_fs launch.2
      (add_spawn (Spawn obabel_command None true (cwd w) launch.1)
         (add_line ("Running conversion command: " +:+ obabel_command)
            (add_line "Detected PQR input file for MGLTools. Converting to PDB format first..." w))) in
  let gave_up e :=
    (Ok i, add_line "Attempting to proceed with original PQR file."
             (add_line ("Warning: PQR to PDB conversion failed: " +:+ exn_str P e) w1)) in
  convert_pqr_to_pdb P i w =
    match launch.1 with
    | Exited rc out err =>
        if rc =? 0 then
          if bool_decide (is_Some (os.stat w1 temp))
          then (Ok temp,
                add_line ("Successfully converted PQR to PDB: "
                            +:+ os_path.relpath (cwd w) temp) w1)
          else (Ok i,
                add_line "Warning: PQR to PDB conversion failed. Attempting to proceed with original PQR file." w1)
        else gave_up (CalledProcessError obabel_command rc out err)
    | TimedOut => gave_up (TimeoutExpired obabel_command None)
    | LaunchFailed msg => gave_up (OtherError msg)
    end.
Proof.
  intros temp obabel_command launch w1 gave_up.
  unfold convert_pqr_to_pdb. fold temp. fold obabel_command.
  cbv beta iota zeta delta [bind ret raise get modify print try_except subprocess_run
    os.path_exists].
  cbn [cwd fs add_line set_fs add_spawn spawned stdout].
  unfold gave_up, w1. fold launch. destruct launch as [oc f']. cbn [fst snd].
  destruct oc as [rc out err| |msg]; cbn [andb]; [|done..].
  destruct (rc =? 0); cbn [negb]; [|done].
  by destruct (bool_decide _).
Qed.

(** The conversion launches the converter once, and stays where it is. *)
Lemma convert_pqr_to_pdb_launch P i w :
  let temp := temp_pdb_path_of i in
  let obabel_command := "obabel -ipqr " +:+ i +:+ " -opdb -O " +:+ temp in
  let launch := sh P obabel_command None (cwd w) (fs w) in
  let conv := convert_pqr_to_pdb P i w in
  spawned conv.2 = spawned w ++ [Spawn obabel_command None true (cwd w) launch.1]
  ∧ cwd conv.2 = cwd w.
Proof.
  intros temp obabel_command launch conv. unfold conv.
  rewrite convert_pqr_to_pdb_unfold. fold temp. fold obabel_command. fold launch.
  destruct launch.1 as [rc out err| |msg]; [|done..].
  destruct (rc =? 0); [|done]. by destruct (bool_decide _).
Qed.

(** The MGLTools command, read off a construction that returned. *)
Lemma construct_shell_command_MGLTools_inv P x y pH cfg w command w1 :
  construct_shell_command P "MGLTools" x y pH cfg w = (Ok command, w1) →
  ∃ mgl_env_name mgl_packages mgl_bin,
    command
    = Some (receptor_command mgl_env_name mgl_packages mgl_bin
              (if os_path.isabs x then os_path.basename x else x)
              (if os_path.isabs y then os_path.basename y else y)
              (if String.eqb (os_path.ext_of x) "pqr" then " -C -U nphs_lps" else "")).
Proof.
  unfold construct_shell_command.
  change (String.eqb "MGLTools" "MGLTools") with true. cbv beta iota zeta.
  intros E.
  apply bind_inv_ok in E as (env_vars&w2&_&E).
  apply bind_inv_ok in E as (mgl_bin&w3&_&E).
  apply bind_inv_ok in E as (mgl_packages&w4&Ep&E).
  apply bind_inv_ok in E as (?&w5&_&E).
  apply bind_inv_ok in E as (?&w6&_&E).
  apply bind_inv_ok in E as (mgl_env_name&w7&_&E).
  apply bind_inv_ok in E as (mgl_packages'&w8&Ep'&E).
  assert (mgl_packages' = mgl_packages) as ->.
  { revert Ep Ep'. unfold getitem.
    destruct (env_vars !! "MGL_PACKAGES"%string); [|done]. unfold ret. congruence. }
  exists mgl_env_name, mgl_packages, mgl_bin.
  destruct (String.eqb (os_path.ext_of x) "pqr"); by injection E as <- _.
Qed.

(** For MGLTools the command that is launched is built again, on the bare
    names of the input and the output, after the change into the
    directory of the input. *)
Lemma launch_command_MGLTools_inv P cmd i o cfg w c w2 :
  launch_command P "MGLTools" cmd i o cfg w = (Ok c, w2) →
  ∃ w1, construct_shell_command P "MGLTools" (os_path.basename i) (os_path.basename o)
          (PyFloat "7.4") cfg w1 = (Ok (Some c), w2)
        ∧ cwd w1 = (if Str.truthy (os_path.dirname i)
                    then os_path.abspath (cwd w) (os_path.dirname i) else cwd w).
Proof.
  unfold launch_command.
  change (String.eqb "MGLTools" "MGLTools") with true. cbv beta iota zeta.
  intros E.
  apply bind_inv_ok in E as ([]&wa&Ea&E). injection Ea as <-.
  apply bind_inv_ok in E as ([]&wb&Eb&E).
  apply bind_inv_ok in E as ([c'|]&wc&Ec&E); [|done]. injection E as <- <-.
  exists wb. split; [done|]. revert Eb.
  destruct (Str.truthy (os_path.dirname i)) eqn:Etr.
  - intros Eb. apply bind_inv_ok in Eb as ([]&wb0&Eb0&Eb). injection Eb0 as <-.
    revert Eb. unfold os.chdir, os.stat. rewrite Etr. cbn [fs cwd add_line].
    destruct (fs w !! _) as [n|]; [|done]. destruct (is_dir n); [|done].
    by intros [= <-].
  - by intros [= <-].
Qed.

(** What follows the choice of the command launches it, once, under the
    timeout and in the directory of that moment. *)
Lemma launched_once P tool c o t w :
  ∃ oc,
    spawned
      (try_except
         (bind (run_checked P tool c o t)
            (λ early, match early with Some b => ret b | None => check_output o end))
         (report_failure P) w).2
    = spawned w ++ [Spawn c (Some t) true (cwd w) oc].
Proof.
  destruct (run_checked_spec P tool c o t w) as (oc&w2&E2&Hs&_). exists oc.
  unfold try_except, bind. rewrite E2.
  destruct (checked_result tool c t _ oc) as [[b|]|e].
  - done.
  - destruct (check_output_spec o w2) as (w3&->&_&_&Hs3&_). cbn [snd]. congruence.
  - destruct (report_failure_raises P e w2) as (w3&->&_&_&Hs3&_). cbn [snd]. congruence.
Qed.

Lemma remove_temp_pdb_no_launch P temp : keeps no_launch (remove_temp_pdb P temp).
Proof. unfold remove_temp_pdb. frame. Qed.

(** Every checked launch of the executor for MGLTools runs a command built
    on the bare names, under the timeout, in the directory of the input. *)
Lemma executor_MGLTools_launches P cmd i o v cfg timeout w :
  let res := _run_subprocess_command P "MGLTools" cmd i o v cfg timeout w in
  ∃ l, spawned res.2 = spawned w ++ l
       ∧ ∀ s, s ∈ l → sp_check s = true →
           sp_timeout s = Some (effective_timeout "MGLTools" timeout)
           ∧ sp_cwd s = (if Str.truthy (os_path.dirname i)
                         then os_path.abspath (cwd w) (os_path.dirname i) else cwd w)
           ∧ ∃ w1 w2,
               construct_shell_command P "MGLTools" (os_path.basename i)
                 (os_path.basename o) (PyFloat "7.4") cfg w1
               = (Ok (Some (sp_command s)), w2).
Proof.
  intros res. unfold res, _run_subprocess_command, bind.
  destruct (announce_unchecked P "MGLTools" w) as (l1&Hl1&Fl1).
  pose proof (announce_same_cwd P "MGLTools" w) as Hc1. unfold same_cwd in Hc1.
  assert (∀ s, s ∈ l1 → sp_check s = true → False) as Hno.
  { intros s Hs Hchk. apply (proj1 (Forall_forall _ _) Fl1) in Hs as [Hs _]. congruence. }
  destruct (announce P "MGLTools" w) as [[original_cwd|e] w1]; cbn [snd] in Hl1, Hc1 |- *.
  2:{ exists l1. split; [done|]. intros s Hs Hchk. destruct (Hno s Hs Hchk). }
  unfold try_finally.
  set (t := effective_timeout "MGLTools" timeout).
  assert (∃ l2, spawned (try_except (guarded P "MGLTools" cmd i o cfg t)
                           (report_failure P) w1).2 = spawned w1 ++ l2
                ∧ ∀ s, s ∈ l2 → sp_check s = true →
                    sp_timeout s = Some t
                    ∧ sp_cwd s = (if Str.truthy (os_path.dirname i)
                                  then os_path.abspath (cwd w) (os_path.dirname i)
                                  else cwd w)
                    ∧ ∃ w1 w2,
                        construct_shell_command P "MGLTools" (os_path.basename i)
                          (os_path.basename o) (PyFloat "7.4") cfg w1
                        = (Ok (Some (sp_command s)), w2)) as (l2&Hl2&Fl2).
  { unfold guarded. rewrite try_except_bind.
    pose proof (launch_command_no_launch P "MGLTools" cmd i o cfg w1) as Hn.
    unfold no_launch in Hn.
    destruct (launch_command P "MGLTools" cmd i o cfg w1) as [[c|e] w2] eqn:El;
      cbn [snd] in Hn.
    - apply launch_command_MGLTools_inv in El as (w1'&Ec&Hcwd).
      destruct (launched_once P "MGLTools" c o t w2) as (oc&Hs).
      exists [Spawn c (Some t) true (cwd w2) oc]. split; [by rewrite Hs, Hn|].
      intros s ->%list_elem_of_singleton _. cbn [sp_timeout sp_cwd sp_command].
      split; [done|]. split; [|by eexists _, _].
      pose proof (construct_shell_command_only_prints P "MGLTools" (os_path.basename i)
                    (os_path.basename o) (PyFloat "7.4") cfg w1') as (_&Hc&_).
      rewrite Ec in Hc. cbn [snd] in Hc. by rewrite Hc, Hcwd, Hc1.
    - destruct (report_failure_raises P e w2) as (w3&->&_&_&Hs3&_). cbn [snd].
      exists []. split; [rewrite app_nil_r; congruence|]. by intros s Hs%elem_of_nil. }
  destruct (try_except _ _ w1) as [r w3]. cbn [snd] in Hl2.
  pose proof (restore_cwd_no_launch original_cwd w3) as Hr. unfold no_launch in Hr.
  exists (l1 ++ l2). split.
  - destruct (restore_cwd original_cwd w3) as [[[]|e] w4]; cbn [snd] in *;
      rewrite Hr, Hl2, Hl1; by rewrite app_assoc.
  - intros s [Hs|Hs]%elem_of_app Hchk; [destruct (Hno s Hs Hchk)|by apply Fl2].
Qed.

(** C10: when the pre-conversion of a PQR input for MGLTools fails (the
    converter does not exit with status 0, or it does and the temporary PDB
    file is not there), [run_program] raises nothing for it: a warning is
    printed, and the command is built and run on the original PQR path.
    The command that is built is the MGLTools command with [-C -U nphs_lps]
    on the name of the PQR file; it is handed to the executor together
    with the PQR path; and after the one launch of the converter every
    checked launch of the call runs that command on the bare name of the
    PQR file, in the directory of the PQR file and under the timeout of the
    executor. *)
Theorem failed_preconversion_falls_back P input output v pH cfg timeout w :
  let i := os_path.abspath (cwd w) input in
  let o := os_path.abspath (cwd w) output in
  let temp := temp_pdb_path_of i in
  let obabel_command := "obabel -ipqr " +:+ i +:+ " -opdb -O " +:+ temp in
  let launch := sh P obabel_command None (cwd w) (fs w) in
  let conv := convert_pqr_to_pdb P i w in
  let res := run_program P "MGLTools" input output v pH cfg timeout w in
  is_Some (os.stat w i) →
  os_path.ext_of i = "pqr"%string →
  (∀ out err, launch.1 = Exited 0 out err → os.stat (set_fs launch.2 w) temp = None) →
  conv.1 = Ok i
  ∧ (∃ line, line ∈ new_lines w conv.2
             ∧ Str.startswith "Warning: PQR to PDB conversion failed" line = true)
  ∧ (∃ line, last (stdout conv.2) = Some line
             ∧ Str.occurs "Attempting to proceed with original PQR file." line)
  ∧ new_launches w conv.2 = [Spawn obabel_command None true (cwd w) launch.1]
  ∧ res = build_and_run P "MGLTools" i o true temp v pH cfg timeout conv.2
  ∧ (∀ command w1,
       construct_shell_command P "MGLTools" i o pH cfg conv.2 = (Ok command, w1) →
       ∃ mgl_env_name mgl_packages mgl_bin,
         let command' :=
           receptor_command mgl_env_name mgl_packages mgl_bin
             (if os_path.isabs i then os_path.basename i else i)
             (if os_path.isabs o then os_path.basename o else o)
             " -C -U nphs_lps" in
         command = Some command'
         ∧ res = (success <- _run_subprocess_command P "MGLTools" command' i o v cfg
                               timeout ;;
                  remove_temp_pdb P temp ;;;
                  ret success) w1)
  ∧ ∃ l,
      new_launches w res.2 = Spawn obabel_command None true (cwd w) launch.1 :: l
      ∧ ∀ s, s ∈ l → sp_check s = true →
          sp_timeout s = Some (effective_timeout "MGLTools" timeout)
          ∧ sp_cwd s = (if Str.truthy (os_path.dirname i)
                        then os_path.abspath (cwd w) (os_path.dirname i) else cwd w)
          ∧ ∃ mgl_env_name mgl_packages mgl_bin,
              sp_command s
              = receptor_command mgl_env_name mgl_packages mgl_bin
                  (os_path.basename i) (os_path.basename o) " -C -U nphs_lps".
Proof.
  intros i o temp obabel_command launch conv res Hfound Hext Hfail.
  assert (conv.1 = Ok i
          ∧ (∃ line, line ∈ new_lines w conv.2
                     ∧ Str.startswith "Warning: PQR to PDB conversion failed" line = true)
          ∧ (∃ line, last (stdout conv.2) = Some line
                     ∧ Str.occurs "Attempting to proceed with original PQR file." line)
          ∧ new_launches w conv.2 = [Spawn obabel_command None true (cwd w) launch.1])
    as (Hconv&Hwarn&Hlast&Hlaunch).
  { unfold conv. rewrite convert_pqr_to_pdb_unfold.
    fold temp. fold obabel_command. fold launch.
    unfold new_lines, new_launches.
    assert (∀ e,
      let w2 :=
        add_line "Attempting to proceed with original PQR file."
          (add_line ("Warning: PQR to PDB conversion failed: " +:+ exn_str P e)
             (set_fs launch.2
                (add_spawn (Spawn obabel_command None true (cwd w) launch.1)
                   (add_line ("Running conversion command: " +:+ obabel_command)
                      (add_line "Detected PQR input file for MGLTools. Converting to PDB format first..." w))))) in
      (∃ line, line ∈ drop (List.length (stdout w)) (stdout w2)
               ∧ Str.startswith "Warning: PQR to PDB conversion failed" line = true)
      ∧ (∃ line, last (stdout w2) = Some line
                 ∧ Str.occurs "Attempting to proceed with original PQR file." line)
      ∧ drop (List.length (spawned w)) (spawned w2)
        = [Spawn obabel_command None true (cwd w) launch.1]) as Hgave_up.
    { intros e. cbn [stdout spawned add_line set_fs add_spawn].
      rewrite <- !app_assoc, !drop_app_length. cbn [app]. split; [|split; [|done]].
      - exists ("Warning: PQR to PDB conversion failed: " +:+ exn_str P e).
        split; [|done]. do 2 apply list_elem_of_further. apply list_elem_of_here.
      - eexists. split; [by rewrite last_app|]. by exists ""%string, ""%string. }
    destruct launch.1 as [rc out err| |msg] eqn:Eoc;
      [|split; [done|apply Hgave_up]..].
    destruct (Z.eqb_spec rc 0) as [->|Hrc]; [|split; [done|apply Hgave_up]].
    rewrite bool_decide_eq_false_2.
    2:{ rewrite (stat_same_files (set_fs launch.2 w) _ temp) by done.
        rewrite (Hfail out err eq_refl). by intros [? ?]. }
    cbn [fst snd stdout spawned add_line set_fs add_spawn].
    rewrite <- !app_assoc, !drop_app_length. cbn [app]. split; [done|].
    split; [|split; [|done]].
    - eexists. split; [do 2 apply list_elem_of_further; apply list_elem_of_here|done].
    - eexists. split; [by rewrite last_app|].
      by exists "Warning: PQR to PDB conversion failed. "%string, ""%string. }
  assert (res = build_and_run P "MGLTools" i o true temp v pH cfg timeout conv.2) as Hrun.
  { unfold res. rewrite run_program_unfold. fold i o.
    rewrite (bind_ok _ _ _ _ _ (check_if_file_exists_found _ _ Hfound)).
    unfold run_validated. rewrite Hext.
    change (String.eqb "MGLTools" "MGLTools" && String.eqb "pqr" "pqr")%bool with true.
    cbv beta iota. fold temp. unfold bind at 1.
    clear Hwarn Hlast Hlaunch. unfold conv in *.
    destruct (convert_pqr_to_pdb P i w) as [r w1]. cbn [fst snd] in *. by subst r. }
  assert (∀ command w1,
            construct_shell_command P "MGLTools" i o pH cfg conv.2 = (Ok command, w1) →
            ∃ mgl_env_name mgl_packages mgl_bin,
              let command' :=
                receptor_command mgl_env_name mgl_packages mgl_bin
                  (if os_path.isabs i then os_path.basename i else i)
                  (if os_path.isabs o then os_path.basename o else o)
                  " -C -U nphs_lps" in
              command = Some command'
              ∧ res = (success <- _run_subprocess_command P "MGLTools" command' i o v cfg
                                    timeout ;;
                       remove_temp_pdb P temp ;;;
                       ret success) w1) as Hbuilt.
  { intros command w1 Ec.
    destruct (construct_shell_command_MGLTools_inv _ _ _ _ _ _ _ _ Ec)
      as (mgl_env_name&mgl_packages&mgl_bin&->).
    rewrite Hext in Ec |- *. change (String.eqb "pqr" "pqr") with true in Ec |- *.
    cbv iota in Ec |- *.
    exists mgl_env_name, mgl_packages, mgl_bin. cbv zeta. split; [done|].
    rewrite Hrun. unfold build_and_run. by rewrite (bind_ok _ _ _ _ _ Ec). }
  repeat split; try done.
  destruct (convert_pqr_to_pdb_launch P i w) as [Hs0 Hc0].
  fold temp obabel_command launch conv in Hs0, Hc0.
  assert (∃ l, spawned res.2 = spawned conv.2 ++ l
               ∧ ∀ s, s ∈ l → sp_check s = true →
                   sp_timeout s = Some (effective_timeout "MGLTools" timeout)
                   ∧ sp_cwd s = (if Str.truthy (os_path.dirname i)
                                 then os_path.abspath (cwd w) (os_path.dirname i)
                                 else cwd w)
                   ∧ ∃ w1 w2,
                       construct_shell_command P "MGLTools" (os_path.basename i)
                         (os_path.basename o) (PyFloat "7.4") cfg w1
                       = (Ok (Some (sp_command s)), w2)) as (l&Hl&Fl).
  { pose proof (construct_shell_command_only_prints P "MGLTools" i o pH cfg conv.2)
      as (_&Hc1&Hs1&_).
    destruct (construct_shell_command P "MGLTools" i o pH cfg conv.2)
      as [[command|e] w1] eqn:Ec; cbn [snd] in Hc1, Hs1.
    - destruct (Hbuilt command w1 eq_refl) as (n&p&b&_&->). unfold bind at 1.
      destruct (executor_MGLTools_launches P
                  (receptor_command n p b
                     (if os_path.isabs i then os_path.basename i else i)
                     (if os_path.isabs o then os_path.basename o else o)
                     " -C -U nphs_lps") i o v cfg timeout w1) as (l&Hl&Fl).
      rewrite Hc1, Hc0 in Fl.
      destruct (_run_subprocess_command _ _ _ _ _ _ _ _ w1) as [[success|e] w2];
        cbn [snd] in Hl |- *.
      + unfold bind.
        pose proof (remove_temp_pdb_no_launch P temp w2) as Hn. unfold no_launch in Hn.
        destruct (remove_temp_pdb P temp w2) as [[[]|e] w3];
          unfold ret; cbn [snd] in Hn |- *;
          exists l; (split; [congruence|done]).
      + exists l. split; [congruence|done].
    - rewrite Hrun. unfold build_and_run. rewrite (bind_raise _ _ _ _ _ Ec). cbn [snd].
      exists []. split; [by rewrite app_nil_r|]. by intros s Hs%elem_of_nil. }
  exists l. split.
  - unfold new_launches. by rewrite Hl, Hs0, <- app_assoc, drop_app_length.
  - intros s Hs Hchk. destruct (Fl s Hs Hchk) as (Ht&Hd&w1&w2&Ec).
    split; [done|]. split; [done|].
    destruct (construct_shell_command_MGLTools_inv _ _ _ _ _ _ _ _ Ec)
      as (mgl_env_name&mgl_packages&mgl_bin&Hcmd).
    rewrite !isabs_basename, ext_of_basename, Hext in Hcmd.
    change (String.eqb "pqr" "pqr") with true in Hcmd. cbv iota in Hcmd.
    exists mgl_env_name, mgl_packages, mgl_bin. congruence.
Qed.

Lemma failed_preconversion_falls_back_witness :
  let conv := convert_pqr_to_pdb Demo.bare "/data/rec.pqr" Demo.start in
  let res := run_program Demo.bare "MGLTools" "/data/rec.pqr" "/data/rec.pdbqt" true
               (PyFloat "7.4") (Some "/etc/dock.json"%string) None Demo.start in
  let command :=
    "conda run -n mgl --no-capture-output bash -c 'export PYTHONPATH=/opt/mgl/pkgs:$PYTHONPATH && /opt/mgl/bin/pythonsh /opt/mgl/pkgs/AutoDockTools/Utilities24/prepare_receptor4.py -r rec.pqr -o rec.pdbqt -A checkhydrogens -C -U nphs_lps'"%string in
  is_Some (os.stat Demo.start "/data/rec.pqr")
  ∧ os_path.ext_of "/data/rec.pqr" = "pqr"%string
  ∧ conv.1 = Ok "/data/rec.pqr"%string
  ∧ res = build_and_run Demo.bare "MGLTools" "/data/rec.pqr" "/data/rec.pdbqt" true
            "/data/rec_temp.pdb" true (PyFloat "7.4") (Some "/etc/dock.json"%string) None
            conv.2
  ∧ (∃ l, new_launches Demo.start res.2
          = Spawn "obabel -ipqr /data/rec.pqr -opdb -O /data/rec_temp.pdb" None true "/work"
              (Exited 127 "" "sh: 1: command not found") :: l
          ∧ ∀ s, s ∈ l → sp_check s = true →
              sp_timeout s = Some 300 ∧ sp_cwd s = "/data"%string
              ∧ ∃ mgl_env_name mgl_packages mgl_bin,
                  sp_command s
                  = receptor_command mgl_env_name mgl_packages mgl_bin "rec.pqr"
                      "rec.pdbqt" " -C -U nphs_lps")
  ∧ (construct_shell_command Demo.bare "MGLTools" "/data/rec.pqr" "/data/rec.pdbqt"
       (PyFloat "7.4") (Some "/etc/dock.json"%string) conv.2).1
    = Ok (Some command)
  ∧ spawned res.2
    = [Spawn "obabel -ipqr /data/rec.pqr -opdb -O /data/rec_temp.pdb" None true "/work"
         (Exited 127 "" "sh: 1: command not found");
       Spawn command (Some 300) true "/data" (Exited 127 "" "sh: 1: command not found")].
Proof.
  intros conv res command.
  assert (is_Some (os.stat Demo.start "/data/rec.pqr")) as Hi by (vm_compute; by eexists).
  destruct (failed_preconversion_falls_back Demo.bare "/data/rec.pqr" "/data/rec.pdbqt"
              true (PyFloat "7.4") (Some "/etc/dock.json"%string) None Demo.start
              Hi eq_refl) as (Hconv&_&_&_&Hrun&_&Hlaunched).
  { intros out err Hl. vm_compute in Hl. discriminate. }
  split; [exact Hi|]. split; [reflexivity|]. split; [exact Hconv|].
  split; [exact Hrun|]. split; [exact Hlaunched|]. split; by vm_compute.
Defined.

(** ** The temporary file *)

(** The removal never raises; after it the path names nothing, or it
    names a directory, which [os.remove] refuses (the warning is printed). *)
Lemma remove_temp_pdb_spec P temp w :
  ∃ w', remove_temp_pdb P temp w = (Ok tt, w')
        ∧ (os.stat w' temp = None
           ∨ ∃ n, os.stat w' temp = Some n ∧ is_dir n = true).
Proof.
  unfold remove_temp_pdb.
  destruct (os.stat w temp) as [n|] eqn:E.
  - rewrite (bind_ok _ _ _ _ _ (path_exists_true w temp (ltac:(by rewrite E)))).
    unfold try_except, bind at 1, os.remove. rewrite E.
    destruct (is_dir n) eqn:Ed.
    + eexists. split; [reflexivity|]. right. exists n. by rewrite stat_add_line.
    + cbv beta iota zeta delta [bind get print modify].
      eexists. split; [reflexivity|]. left.
      revert E. unfold os.stat. cbn [fs cwd add_line set_fs].
      destruct (Str.truthy temp); [|done]. intros _. apply lookup_delete_eq.
  - rewrite (bind_ok _ _ _ _ _ (path_exists_false w temp E)).
    exists w. split; [done|]. by left.
Qed.

(** When the run returns, the temporary file is gone. *)
Lemma temp_gone_when_run_returns P tool input o temp v pH cfg timeout w b w' :
  build_and_run P tool input o true temp v pH cfg timeout w = (Ok b, w') →
  os.stat w' temp = None ∨ ∃ n, os.stat w' temp = Some n ∧ is_dir n = true.
Proof.
  unfold build_and_run. intros E.
  apply bind_inv_ok in E as ([command|]&w1&_&E); [|done].
  destruct (Str.truthy command); [|done].
  apply bind_inv_ok in E as (success&w2&_&E).
  apply bind_inv_ok in E as ([]&w3&E&E3). injection E3 as _ <-.
  destruct (remove_temp_pdb_spec P temp w2) as (w3'&E'&H).
  rewrite E' in E. by injection E as <-.
Qed.

(** C1 on a run that raises: the converter has written the temporary PDB
    file, the receptor script exits with status 1, the error leaves
    [run_program] before the removal is reached, and the temporary file is
    still there. *)
Theorem temporary_file_left_behind :
  let res := run_program Demo.tools "MGLTools" "/data/rec.pqr" "/data/rec.pdbqt" true
               (PyFloat "7.4") (Some "/etc/dock.json"%string) None Demo.start in
  os_path.ext_of "/data/rec.pqr" = "pqr"%string
  ∧ os.stat Demo.start "/data/rec_temp.pdb" = None
  ∧ res.1 = Raise (CalledProcessError
                     "conda run -n mgl --no-capture-output bash -c 'export PYTHONPATH=/opt/mgl/pkgs:$PYTHONPATH && /opt/mgl/bin/pythonsh /opt/mgl/pkgs/AutoDockTools/Utilities24/prepare_receptor4.py -r rec_temp.pdb -o rec.pdbqt -A checkhydrogens'"
                     1 "" "boom")
  ∧ sp_command <$> spawned res.2
    = ["obabel -ipqr /data/rec.pqr -opdb -O /data/rec_temp.pdb"%string;
       "conda run -n mgl --no-capture-output bash -c 'export PYTHONPATH=/opt/mgl/pkgs:$PYTHONPATH && /opt/mgl/bin/pythonsh /opt/mgl/pkgs/AutoDockTools/Utilities24/prepare_receptor4.py -r rec_temp.pdb -o rec.pdbqt -A checkhydrogens'"%string]
  ∧ os.stat res.2 "/data/rec_temp.pdb" = Some Demo.file
  ∧ cwd res.2 = "/work"%string.
Proof. repeat split; by vm_compute. Qed.

(** * Further properties *)

(** ** The configuration file *)

Lemma get_env_vars_same_world P c w : (get_env_vars P c w).2 = w.
Proof.
  destruct c as [c|]; [|done]. unfold get_env_vars.
  cbv beta iota zeta delta [bind get os.path_exists].
  destruct (bool_decide _); cbn [negb]; [|done].
  destruct (os.stat w c) as [n|]; [|done].
  destruct (is_dir n); [done|]. by destruct (json_load P _).
Qed.

Lemma get_env_vars_ok P c w env_vars :
  (get_env_vars P c w).1 = Ok env_vars → get_env_vars P c w = (Ok env_vars, w).
Proof.
  intros E. pose proof (get_env_vars_same_world P c w) as Hw.
  destruct (get_env_vars P c w) as [r w']. cbn in *. by subst.
Qed.

(** X1: [get_env_vars] reads and never writes: the world is as before,
    whatever the result.  A path that names nothing ends in the module's
    own [FileNotFoundError]; a regular file gives what [json.load] reads
    from it, the mapping or the decoding error; no path at all (the
    default [None]) is a type error. *)
Theorem get_env_vars_outcomes P config_file w :
  (∀ c, (get_env_vars P c w).2 = w)
  ∧ (get_env_vars P None w).1
    = Raise (TypeError "stat: path should be string, bytes, os.PathLike or integer, not NoneType")
  ∧ (os.stat w config_file = None →
     (get_env_vars P (Some config_file) w).1
     = Raise (FileNotFoundError ("Environment file not found at: " +:+ config_file)))
  ∧ (∀ n, os.stat w config_file = Some n → is_dir n = false →
     (get_env_vars P (Some config_file) w).1
     = match json_load P (os_path.abspath (cwd w) config_file) with
       | inl env_vars => Ok env_vars
       | inr msg => Raise (JSONDecodeError msg)
       end).
Proof.
  split; [|split; [done|split]].
  - intros c. apply get_env_vars_same_world.
  - intros E. unfold get_env_vars.
    by rewrite (bind_ok _ _ _ _ _ (path_exists_false w config_file E)).
  - intros n E Hd. unfold get_env_vars.
    rewrite (bind_ok _ _ _ _ _ (path_exists_true w config_file ltac:(by rewrite E))).
    cbv beta iota zeta delta [bind get negb]. rewrite E, Hd.
    by destruct (json_load P _).
Qed.

Lemma get_env_vars_outcomes_witness :
  os.stat Demo.start "/etc/missing.json" = None
  ∧ os.stat Demo.start "/etc/dock.json" = Some Demo.file
  ∧ (get_env_vars Demo.tools (Some "/etc/missing.json"%string) Demo.start).1
    = Raise (FileNotFoundError "Environment file not found at: /etc/missing.json")
  ∧ (get_env_vars Demo.tools (Some "/etc/dock.json"%string) Demo.start).1 = Ok Demo.config
  ∧ (get_env_vars Demo.tools (Some "/data/rec.pdb"%string) Demo.start).1
    = Raise (JSONDecodeError "Expecting value: line 1 column 1 (char 0)").
Proof.
  assert (os.stat Demo.start "/etc/missing.json" = None) as H1 by (by vm_compute).
  assert (os.stat Demo.start "/etc/dock.json" = Some Demo.file) as H2 by (by vm_compute).
  assert (os.stat Demo.start "/data/rec.pdb" = Some Demo.file) as H3 by (by vm_compute).
  split; [exact H1|]. split; [exact H2|].
  destruct (get_env_vars_outcomes Demo.tools "/etc/missing.json" Demo.start)
    as (_&_&Hmissing&_).
  destruct (get_env_vars_outcomes Demo.tools "/etc/dock.json" Demo.start)
    as (_&_&_&Hread).
  destruct (get_env_vars_outcomes Demo.tools "/data/rec.pdb" Demo.start)
    as (_&_&_&Hbad).
  split; [exact (Hmissing H1)|].
  split; [exact (Hread _ H2 eq_refl)|exact (Hbad _ H3 eq_refl)].
Defined.

(** ** The conda environment *)

(** X2: inside a conda environment ([CONDA_DEFAULT_ENV] set and not
    empty) [get_conda_env] answers with its name, launches nothing and
    leaves the world as it is. *)
Theorem get_conda_env_from_environment P name w :
  conda_default_env w = Some name → name ≠ ""%string →
  get_conda_env P w = (Ok name, w).
Proof.
  intros E Hne. unfold get_conda_env.
  cbv beta iota zeta delta [bind get os.environ_get_CONDA_DEFAULT_ENV]. rewrite E.
  unfold Str.truthy. by destruct (String.eqb_spec name "").
Qed.

Lemma get_conda_env_from_environment_witness :
  conda_default_env Demo.start = Some "dock"%string
  ∧ get_conda_env Demo.bare Demo.start = (Ok "dock"%string, Demo.start).
Proof.
  split; [reflexivity|].
  by apply (get_conda_env_from_environment Demo.bare "dock" Demo.start).
Defined.

(** X3: outside of a conda environment ([CONDA_DEFAULT_ENV] unset or
    empty) [get_conda_env] launches the probe once, unchecked and without
    a timeout, and never raises: the answer is the first word of the
    output of a probe that exited with status 0, and the text "No conda
    environment detected" for an empty or blank output, another exit
    status or a failed launch. *)
Theorem get_conda_env_probes P w :
  conda_default_env w = None ∨ conda_default_env w = Some ""%string →
  let launch := sh P conda_probe None (cwd w) (fs w) in
  get_conda_env P w
  = (Ok (probe_answer launch.1),
     set_fs launch.2 (add_spawn (Spawn conda_probe None false (cwd w) launch.1) w)).
Proof.
  intros E. cbv zeta.
  assert (match conda_default_env w with
          | Some name => Str.truthy name = false
          | None => True
          end) as Hunset.
  { by destruct E as [->| ->]. }
  unfold get_conda_env.
  cbv beta iota zeta delta [bind get ret raise os.environ_get_CONDA_DEFAULT_ENV
    try_except subprocess_run].
  clear E.
  destruct (conda_default_env w) as [name|]; [rewrite Hunset|].
  all: cbv beta.
  all: destruct (sh P conda_probe None (cwd w) (fs w)) as [oc f']; cbn [fst snd andb].
  all: destruct oc as [rc out err| |msg]; [|done..].
  all: cbn [cp_returncode cp_stdout probe_answer].
  all: destruct ((rc =? 0) && Str.truthy out)%bool; [|done].
  all: by destruct (Str.words out).
Qed.

Lemma get_conda_env_probes_witness :
  conda_default_env Bench.outside_conda = None
  ∧ (get_conda_env Bench.with_conda Bench.outside_conda).1 = Ok "base"%string
  ∧ (get_conda_env Demo.bare Bench.outside_conda).1
    = Ok "No conda environment detected"%string
  ∧ sp_command <$> spawned (get_conda_env Demo.bare Bench.outside_conda).2
    = [conda_probe].
Proof.
  split; [reflexivity|].
  rewrite (get_conda_env_probes Bench.with_conda Bench.outside_conda (or_introl eq_refl)).
  rewrite (get_conda_env_probes Demo.bare Bench.outside_conda (or_introl eq_refl)).
  repeat split; by vm_compute.
Defined.


(** ** The check of a path *)

Lemma for_each_print_lines {A} (l : list A) (f : A → string) w :
  for_each l (λ x, print (f x)) w
  = (Ok tt, World (fs w) (cwd w) (conda_default_env w) (spawned w) (stdout w ++ (f <$> l))).
Proof.
  revert w. induction l as [|x l IH]; intros w.
  - cbn. rewrite app_nil_r. by destruct w.
  - change (for_each (x :: l) (λ x, print (f x)) w)
      with (for_each l (λ x, print (f x)) (add_line (f x) w)).
    rewrite IH. cbn [fs cwd conda_default_env spawned stdout add_line fmap list_fmap].
    by rewrite <- app_assoc.
Qed.

(** X4: for a path that names nothing inside an existing directory,
    [_check_if_file_exists] raises the module's own [FileNotFoundError]
    with the path in its message, after it has printed the warning and the
    header of the listing; it launches nothing and leaves the file system
    and the working directory alone.  On an existing path it returns
    [True] and prints nothing. *)
Theorem check_if_file_exists_reports w p :
  let directory := if Str.truthy (os_path.dirname p) then os_path.dirname p else "."%string in
  (is_Some (os.stat w p) → _check_if_file_exists p w = (Ok true, w))
  ∧ (os.stat w p = None → dir_at (fs w) (os_path.abspath (cwd w) directory) →
     Str.truthy directory = true →
     ∃ w', _check_if_file_exists p w
             = (Raise (FileNotFoundError ("Input file not found: " +:+ p)), w')
           ∧ only_prints w w'
           ∧ take 2 (new_lines w w')
             = ["⚠️ WARNING: Input file not found at: " +:+ p;
                "Contents of directory " +:+ directory +:+ ":"]).
Proof.
  intros directory. split; [apply check_if_file_exists_found|].
  intros E (n&Hn&Hd) Ht.
  assert (∃ w' l,
            _check_if_file_exists p w
              = (Raise (FileNotFoundError ("Input file not found: " +:+ p)), w')
            ∧ stdout w'
              = stdout w ++ ["⚠️ WARNING: Input file not found at: " +:+ p;
                             "Contents of directory " +:+ directory +:+ ":"] ++ l)
    as (w'&l&Ew&Hl).
  { unfold _check_if_file_exists.
    rewrite (bind_ok _ _ _ _ _ (path_exists_false _ _ E)). cbn [negb].
    fold directory.
    unfold bind at 1. unfold print at 1, modify. unfold bind at 1.
    unfold print at 1, modify. unfold bind at 1.
    set (w2 := add_line _ (add_line _ w)).
    unfold os.listdir at 1.
    assert (os.stat w2 directory = Some n) as ->.
    { unfold os.stat. by rewrite Ht. }
    rewrite Hd.
    set (files := os_path.basename <$> _).
    rewrite (bind_ok _ _ _ _ _ (for_each_print_lines files (λ file, "  - " +:+ file) w2)).
    eexists _, ((λ file, "  - " +:+ file) <$> files). split; [reflexivity|].
    cbn [stdout add_line]. unfold w2. cbn [stdout add_line].
    by rewrite <- !app_assoc. }
  exists w'. split; [exact Ew|].
  pose proof (check_if_file_exists_only_prints p w) as Hp. rewrite Ew in Hp.
  split; [exact Hp|]. unfold new_lines. by rewrite Hl, drop_app_length.
Qed.

Lemma check_if_file_exists_reports_witness :
  let p := "/data/ghost.pdb"%string in
  let directory :=
    if Str.truthy (os_path.dirname p) then os_path.dirname p else "."%string in
  os.stat Demo.start p = None
  ∧ dir_at (fs Demo.start) (os_path.abspath (cwd Demo.start) directory)
  ∧ Str.truthy directory = true
  ∧ ∃ w', _check_if_file_exists p Demo.start
            = (Raise (FileNotFoundError ("Input file not found: " +:+ p)), w')
          ∧ only_prints Demo.start w'
          ∧ take 2 (new_lines Demo.start w')
            = ["⚠️ WARNING: Input file not found at: " +:+ p;
               "Contents of directory " +:+ directory +:+ ":"].
Proof.
  intros p directory.
  assert (os.stat Demo.start p = None) as H1 by (by vm_compute).
  assert (dir_at (fs Demo.start) (os_path.abspath (cwd Demo.start) directory)) as H2
    by (exists Demo.dir; split; by vm_compute).
  assert (Str.truthy directory = true) as H3 by (by vm_compute).
  split; [exact H1|]. split; [exact H2|]. split; [exact H3|].
  exact (proj2 (check_if_file_exists_reports Demo.start p) H1 H2 H3).
Defined.

(** ** Command construction, continued *)

(** X5: [construct_shell_command] only reads and prints: for every tool
    and every outcome it launches no process and leaves the file system and
    the working directory as they are. *)
Theorem construct_shell_command_reads_only P tool i o pH cfg w :
  let res := construct_shell_command P tool i o pH cfg w in
  spawned res.2 = spawned w ∧ fs res.2 = fs w ∧ cwd res.2 = cwd w.
Proof.
  intros res.
  destruct (construct_shell_command_only_prints P tool i o pH cfg w) as (Hf&Hc&Hs&_).
  done.
Qed.

(** X6: with [MOLPROBITY_BIN] configured and both [reduce] and [probe] in
    place, the MolProbity command runs [reduce -FLIP] on the input and
    redirects its output to the output path; nothing is printed.  [probe]
    is not part of the command, and still its absence fails the
    construction with the error of the check. *)
Theorem construct_shell_command_MolProbity P i o pH cfg w env_vars bin :
  (get_env_vars P cfg w).1 = Ok env_vars →
  env_vars !! "MOLPROBITY_BIN"%string = Some bin →
  is_Some (os.stat w (os_path.join bin "reduce")) →
  (is_Some (os.stat w (os_path.join bin "probe")) →
   construct_shell_command P "MolProbity" i o pH cfg w
   = (Ok (Some (os_path.join bin "reduce" +:+ " -FLIP " +:+ i +:+ " > " +:+ o)), w))
  ∧ (os.stat w (os_path.join bin "probe") = None →
     ∃ e, (construct_shell_command P "MolProbity" i o pH cfg w).1 = Raise e
          ∧ lookup_error e).
Proof.
  intros Henv Hbin Hreduce. apply get_env_vars_ok in Henv.
  unfold construct_shell_command.
  change (String.eqb "MolProbity" "MGLTools") with false.
  change (String.eqb "MolProbity" "OpenBabel") with false.
  change (String.eqb "MolProbity" "MolProbity") with true. cbv iota.
  rewrite (bind_ok _ _ _ _ _ Henv). unfold getitem. rewrite Hbin.
  rewrite !(bind_ok (ret bin) _ w bin w eq_refl).
  rewrite (bind_ok _ _ _ _ _ (check_if_file_exists_found _ _ Hreduce)).
  split.
  - intros Hprobe.
    by rewrite (bind_ok _ _ _ _ _ (check_if_file_exists_found _ _ Hprobe)).
  - intros Hprobe.
    destruct (check_if_file_exists_missing w _ Hprobe) as (e&w'&E&He).
    rewrite (bind_raise _ _ _ _ _ E). by exists e.
Qed.

Lemma construct_shell_command_MolProbity_witness :
  (get_env_vars Demo.tools (Some "/etc/dock.json"%string) Demo.start).1 = Ok Demo.config
  ∧ Demo.config !! "MOLPROBITY_BIN"%string = Some "/opt/molprobity/bin"%string
  ∧ is_Some (os.stat Demo.start (os_path.join "/opt/molprobity/bin" "reduce"))
  ∧ is_Some (os.stat Demo.start (os_path.join "/opt/molprobity/bin" "probe"))
  ∧ construct_shell_command Demo.tools "MolProbity" "/data/rec.pdb" "/data/recH.pdb"
      (PyFloat "7.4") (Some "/etc/dock.json"%string) Demo.start
    = (Ok (Some (os_path.join "/opt/molprobity/bin" "reduce" +:+ " -FLIP "
                   +:+ "/data/rec.pdb" +:+ " > " +:+ "/data/recH.pdb")),
       Demo.start)
  ∧ os_path.join "/opt/molprobity/bin" "reduce" = "/opt/molprobity/bin/reduce"%string.
Proof.
  assert ((get_env_vars Demo.tools (Some "/etc/dock.json"%string) Demo.start).1
          = Ok Demo.config) as H1 by reflexivity.
  assert (Demo.config !! "MOLPROBITY_BIN"%string = Some "/opt/molprobity/bin"%string)
    as H2 by reflexivity.
  assert (is_Some (os.stat Demo.start (os_path.join "/opt/molprobity/bin" "reduce")))
    as H3 by (vm_compute; by eexists).
  assert (is_Some (os.stat Demo.start (os_path.join "/opt/molprobity/bin" "probe")))
    as H4 by (vm_compute; by eexists).
  split; [exact H1|]. split; [exact H2|]. split; [exact H3|]. split; [exact H4|].
  split; [|reflexivity].
  exact (proj1 (construct_shell_command_MolProbity Demo.tools "/data/rec.pdb"
                  "/data/recH.pdb" (PyFloat "7.4") (Some "/etc/dock.json"%string)
                  Demo.start Demo.config "/opt/molprobity/bin" H1 H2 H3) H4).
Defined.

(** X7: with the three keys of MGLTools in the configuration and both
    [pythonsh] and [prepare_receptor4.py] in place, the MGLTools command
    runs the script under [pythonsh] in the configured conda environment,
    on the bare names of absolute paths; an input with the extension
    [pqr] gets [-C -U nphs_lps], which keeps its charges, and every other
    input only [-A checkhydrogens].  Nothing is printed or changed. *)
Theorem construct_shell_command_MGLTools P i o pH cfg w env_vars
    mgl_bin mgl_packages mgl_env_name :
  (get_env_vars P cfg w).1 = Ok env_vars →
  env_vars !! "MGL_BIN"%string = Some mgl_bin →
  env_vars !! "MGL_PACKAGES"%string = Some mgl_packages →
  env_vars !! "MGL_ENV_NAME"%string = Some mgl_env_name →
  is_Some (os.stat w (os_path.join mgl_bin "pythonsh")) →
  is_Some (os.stat w (os_path.join
                        (os_path.join (os_path.join mgl_packages "AutoDockTools")
                                      "Utilities24") "prepare_receptor4.py")) →
  construct_shell_command P "MGLTools" i o pH cfg w
  = (Ok (Some (receptor_command mgl_env_name mgl_packages mgl_bin
                 (if os_path.isabs i then os_path.basename i else i)
                 (if os_path.isabs o then os_path.basename o else o)
                 (if String.eqb (os_path.ext_of i) "pqr" then " -C -U nphs_lps" else ""))),
     w).
Proof.
  intros Henv Hbin Hpkgs Hname Hpythonsh Hscript. apply get_env_vars_ok in Henv.
  unfold construct_shell_command.
  change (String.eqb "MGLTools" "MGLTools") with true. cbv beta iota zeta.
  rewrite (bind_ok _ _ _ _ _ Henv). unfold getitem. rewrite Hbin, Hpkgs, Hname.
  rewrite (bind_ok (ret mgl_bin) _ w mgl_bin w eq_refl).
  rewrite (bind_ok (ret mgl_packages) _ w mgl_packages w eq_refl).
  rewrite (bind_ok _ _ _ _ _ (check_if_file_exists_found _ _ Hpythonsh)).
  rewrite (bind_ok _ _ _ _ _ (check_if_file_exists_found _ _ Hscript)).
  rewrite (bind_ok (ret mgl_env_name) _ w mgl_env_name w eq_refl).
  rewrite (bind_ok (ret mgl_packages) _ w mgl_packages w eq_refl).
  by destruct (String.eqb (os_path.ext_of i) "pqr").
Qed.

Lemma construct_shell_command_MGLTools_witness :
  let i := "/data/rec.pdb"%string in
  let o := "/data/rec.pdbqt"%string in
  let cfg := Some "/etc/dock.json"%string in
  (get_env_vars Demo.tools cfg Demo.start).1 = Ok Demo.config
  ∧ Demo.config !! "MGL_BIN"%string = Some "/opt/mgl/bin"%string
  ∧ Demo.config !! "MGL_PACKAGES"%string = Some "/opt/mgl/pkgs"%string
  ∧ Demo.config !! "MGL_ENV_NAME"%string = Some "mgl"%string
  ∧ construct_shell_command Demo.tools "MGLTools" i o (PyFloat "7.4") cfg Demo.start
    = (Ok (Some (receptor_command "mgl" "/opt/mgl/pkgs" "/opt/mgl/bin"
                   (if os_path.isabs i then os_path.basename i else i)
                   (if os_path.isabs o then os_path.basename o else o)
                   (if String.eqb (os_path.ext_of i) "pqr" then " -C -U nphs_lps" else ""))),
       Demo.start)
  ∧ (construct_shell_command Demo.tools "MGLTools" i o (PyFloat "7.4") cfg Demo.start).1
    = Ok (Some "conda run -n mgl --no-capture-output bash -c 'export PYTHONPATH=/opt/mgl/pkgs:$PYTHONPATH && /opt/mgl/bin/pythonsh /opt/mgl/pkgs/AutoDockTools/Utilities24/prepare_receptor4.py -r rec.pdb -o rec.pdbqt -A checkhydrogens'"%string).
Proof.
  intros i o cfg.
  assert ((get_env_vars Demo.tools cfg Demo.start).1 = Ok Demo.config) as H1
    by reflexivity.
  assert (Demo.config !! "MGL_BIN"%string = Some "/opt/mgl/bin"%string) as H2
    by reflexivity.
  assert (Demo.config !! "MGL_PACKAGES"%string = Some "/opt/mgl/pkgs"%string) as H3
    by reflexivity.
  assert (Demo.config !! "MGL_ENV_NAME"%string = Some "mgl"%string) as H4
    by reflexivity.
  split; [exact H1|]. split; [exact H2|]. split; [exact H3|]. split; [exact H4|].
  split; [|by vm_compute].
  apply (construct_shell_command_MGLTools Demo.tools i o (PyFloat "7.4") cfg Demo.start
           Demo.config "/opt/mgl/bin" "/opt/mgl/pkgs" "mgl" H1 H2 H3 H4);
    vm_compute; by eexists.
Defined.

(** X8: a key that the configuration lacks is reported by the [KeyError]
    of the dictionary lookup, which carries the key and nothing else:
    [MGL_BIN] for MGLTools and [MOLPROBITY_BIN] for MolProbity, the first
    key each of them reads. *)
Theorem missing_key_is_KeyError P i o pH cfg w env_vars :
  (get_env_vars P cfg w).1 = Ok env_vars →
  (env_vars !! "MGL_BIN"%string = None →
   construct_shell_command P "MGLTools" i o pH cfg w = (Raise (KeyError "MGL_BIN"), w))
  ∧ (env_vars !! "MOLPROBITY_BIN"%string = None →
     construct_shell_command P "MolProbity" i o pH cfg w
     = (Raise (KeyError "MOLPROBITY_BIN"), w)).
Proof.
  intros Henv. apply get_env_vars_ok in Henv.
  split; intros Hkey; unfold construct_shell_command.
  - change (String.eqb "MGLTools" "MGLTools") with true. cbv beta iota zeta.
    rewrite (bind_ok _ _ _ _ _ Henv). unfold getitem. by rewrite Hkey.
  - change (String.eqb "MolProbity" "MGLTools") with false.
    change (String.eqb "MolProbity" "OpenBabel") with false.
    change (String.eqb "MolProbity" "MolProbity") with true. cbv beta iota zeta.
    rewrite (bind_ok _ _ _ _ _ Henv). unfold getitem. by rewrite Hkey.
Qed.

Lemma missing_key_is_KeyError_witness :
  let cfg := Some "/etc/dock.json"%string in
  (get_env_vars Bench.unconfigured cfg Demo.start).1 = Ok ∅
  ∧ (construct_shell_command Bench.unconfigured "MGLTools" "/data/rec.pdb"
       "/data/rec.pdbqt" (PyFloat "7.4") cfg Demo.start).1 = Raise (KeyError "MGL_BIN")
  ∧ (construct_shell_command Bench.unconfigured "MolProbity" "/data/rec.pdb"
       "/data/recH.pdb" (PyFloat "7.4") cfg Demo.start).1
    = Raise (KeyError "MOLPROBITY_BIN").
Proof.
  intros cfg.
  assert ((get_env_vars Bench.unconfigured cfg Demo.start).1 = Ok ∅) as H1
    by reflexivity.
  split; [exact H1|].
  destruct (missing_key_is_KeyError Bench.unconfigured "/data/rec.pdb" "/data/rec.pdbqt"
              (PyFloat "7.4") cfg Demo.start ∅ H1) as [Hm _].
  destruct (missing_key_is_KeyError Bench.unconfigured "/data/rec.pdb" "/data/recH.pdb"
              (PyFloat "7.4") cfg Demo.start ∅ H1) as [_ Hr].
  split; [by rewrite Hm|by rewrite Hr].
Defined.

(** X9: the example of the format conversion: from [in.pdb] to [out.pdb]
    the converter is called with the format code [pdb] on both sides. *)
Theorem construct_shell_command_OpenBabel_example P pH cfg w :
  construct_shell_command P "OpenBabel" "in.pdb" "out.pdb" pH cfg w
  = (Ok (Some "obabel -ipdb in.pdb -opdb -O out.pdb"%string), w).
Proof. by rewrite construct_shell_command_OpenBabel. Qed.

(** ** The executor, continued *)

(** For a tool that stays in its directory the result of the executor is
    read off the outcome of its one checked launch. *)
Lemma executor_plain_checked P tool cmd i o v cfg timeout w s :
  let res := _run_subprocess_command P tool cmd i o v cfg timeout w in
  tool ≠ "MGLTools" →
  dir_at (fs w) (cwd w) → sh_keeps_dir P (cwd w) →
  s ∈ new_launches w res.2 → sp_check s = true →
  s = Spawn cmd (Some (effective_timeout tool timeout)) true (cwd w) (sp_outcome s)
  ∧ res.1 = executor_result tool cmd (effective_timeout tool timeout)
              (bool_decide (is_Some (os.stat res.2 o))) (sp_outcome s)
  ∧ cwd res.2 = cwd w.
Proof.
  intros res Hne Hd HP Hs Hchk.
  destruct (executor_plain P tool cmd i o v cfg timeout w Hne Hd HP)
    as (oc&l&Hsp&Fl&Hc&Hres&_).
  fold res in Hsp, Hres, Hc.
  unfold new_launches in Hs. rewrite Hsp, drop_app_length in Hs.
  apply elem_of_app in Hs as [Hs|Hs].
  - apply (proj1 (Forall_forall _ _) Fl) in Hs as [Hs _]. congruence.
  - apply list_elem_of_singleton in Hs. by subst s.
Qed.

(** X10: a timeout is fatal.  When the checked launch of a tool that stays
    in its directory runs into the timeout, the executor raises
    [TimeoutExpired] with the command and the timeout it settled on, and
    the working directory is the one of the call. *)
Theorem timeout_is_fatal P tool cmd i o v cfg timeout w s :
  let res := _run_subprocess_command P tool cmd i o v cfg timeout w in
  tool ≠ "MGLTools" →
  dir_at (fs w) (cwd w) → sh_keeps_dir P (cwd w) →
  s ∈ new_launches w res.2 → sp_check s = true → sp_outcome s = TimedOut →
  res.1 = Raise (TimeoutExpired cmd (Some (effective_timeout tool timeout)))
  ∧ cwd res.2 = cwd w.
Proof.
  intros res Hne Hd HP Hs Hchk Hout.
  destruct (executor_plain_checked P tool cmd i o v cfg timeout w s Hne Hd HP Hs Hchk)
    as (_&Hres&Hc).
  fold res in Hres, Hc. by rewrite Hres, Hout.
Qed.

Lemma timeout_is_fatal_witness :
  let cmd := "pdb2pqr30 --ff AMBER --keep-chain --titration-state-method propka --with-ph 7.4 /data/rec.pdb /data/rec.pqr"%string in
  let res := _run_subprocess_command Bench.stalled "PDB2PQR" cmd "/data/rec.pdb"
               "/data/rec.pqr" true None None Demo.start in
  let s := Spawn cmd (Some 1800) true "/work" TimedOut in
  dir_at (fs Demo.start) (cwd Demo.start)
  ∧ sh_keeps_dir Bench.stalled (cwd Demo.start)
  ∧ s ∈ new_launches Demo.start res.2
  ∧ res.1 = Raise (TimeoutExpired cmd (Some 1800))
  ∧ cwd res.2 = "/work"%string.
Proof.
  intros cmd res s.
  assert (dir_at (fs Demo.start) (cwd Demo.start)) as Hd by (exists Demo.dir; by vm_compute).
  assert (sh_keeps_dir Bench.stalled (cwd Demo.start)) as HP by (by intros ? ? ? ? ?).
  assert (s ∈ new_launches Demo.start res.2) as Hs by (vm_compute; constructor).
  split; [exact Hd|]. split; [exact HP|]. split; [exact Hs|].
  exact (timeout_is_fatal Bench.stalled "PDB2PQR" cmd "/data/rec.pdb" "/data/rec.pqr" true
           None None Demo.start s ltac:(done) Hd HP Hs eq_refl eq_refl).
Defined.

(** X11: after a checked launch that exited with status 0 the answer of
    the executor is whether the output file is there, for every tool that
    stays in its directory: [True] with the file, [False] without it, and
    no exception. *)
Theorem zero_exit_checks_output P tool cmd i o v cfg timeout w s out err :
  let res := _run_subprocess_command P tool cmd i o v cfg timeout w in
  tool ≠ "MGLTools" →
  dir_at (fs w) (cwd w) → sh_keeps_dir P (cwd w) →
  s ∈ new_launches w res.2 → sp_check s = true → sp_outcome s = Exited 0 out err →
  res.1 = Ok (bool_decide (is_Some (os.stat res.2 o))).
Proof.
  intros res Hne Hd HP Hs Hchk Hout.
  destruct (executor_plain_checked P tool cmd i o v cfg timeout w s Hne Hd HP Hs Hchk)
    as (_&Hres&_).
  fold res in Hres. by rewrite Hres, Hout.
Qed.

Lemma zero_exit_checks_output_witness :
  let cmd := "pdb2pqr30 --ff AMBER --keep-chain --titration-state-method propka --with-ph 7.4 /data/rec.pdb /data/out.pqr"%string in
  let res := _run_subprocess_command Demo.tools "PDB2PQR" cmd "/data/rec.pdb"
               "/data/out.pqr" true None None Demo.start in
  let s := Spawn cmd (Some 1800) true "/work" (Exited 0 "" "") in
  dir_at (fs Demo.start) (cwd Demo.start)
  ∧ sh_keeps_dir Demo.tools (cwd Demo.start)
  ∧ s ∈ new_launches Demo.start res.2
  ∧ res.1 = Ok (bool_decide (is_Some (os.stat res.2 "/data/out.pqr")))
  ∧ (res.1 = Ok false ∧ os.stat res.2 "/data/out.pqr" = None).
Proof.
  intros cmd res s.
  assert (dir_at (fs Demo.start) (cwd Demo.start)) as Hd by (exists Demo.dir; by vm_compute).
  assert (sh_keeps_dir Demo.tools (cwd Demo.start)) as HP
    by (by apply demo_tools_keep_dir).
  assert (s ∈ new_launches Demo.start res.2) as Hs by (vm_compute; constructor).
  split; [exact Hd|]. split; [exact HP|]. split; [exact Hs|].
  split; [|split; by vm_compute].
  exact (zero_exit_checks_output Demo.tools "PDB2PQR" cmd "/data/rec.pdb" "/data/out.pqr"
           true None None Demo.start s "" "" ltac:(done) Hd HP Hs eq_refl eq_refl).
Defined.


(** ** The temporary file, continued *)

(** X13: when [run_program] returns for MGLTools on a PQR input, the
    temporary file of the pre-conversion is gone: after the call its path
    names nothing, or a directory, which [os.remove] refuses. *)
Theorem temporary_file_removed_on_return P input output v pH cfg timeout w b :
  let i := os_path.abspath (cwd w) input in
  let res := run_program P "MGLTools" input output v pH cfg timeout w in
  os_path.ext_of i = "pqr"%string →
  res.1 = Ok b →
  os.stat res.2 (temp_pdb_path_of i) = None
  ∨ ∃ n, os.stat res.2 (temp_pdb_path_of i) = Some n ∧ is_dir n = true.
Proof.
  intros i res Hext Hres.
  destruct res as [r w'] eqn:E. cbn [fst snd] in *. subst r.
  unfold res in E. rewrite run_program_unfold in E. fold i in E.
  apply bind_inv_ok in E as (?&w1&_&E).
  unfold run_validated in E. rewrite Hext in E.
  change (String.eqb "MGLTools" "MGLTools" && String.eqb "pqr" "pqr")%bool with true in E.
  cbv beta iota zeta in E.
  apply bind_inv_ok in E as (effective_input&w2&_&E).
  by apply temp_gone_when_run_returns in E.
Qed.

Lemma temporary_file_removed_on_return_witness :
  let res := run_program Bench.working "MGLTools" "/data/rec.pqr" "/data/rec.pdbqt" true
               (PyFloat "7.4") (Some "/etc/dock.json"%string) None Demo.start in
  let i := os_path.abspath (cwd Demo.start) "/data/rec.pqr" in
  os_path.ext_of i = "pqr"%string
  ∧ res.1 = Ok true
  ∧ (sp_command <$> spawned res.2)
    = ["obabel -ipqr /data/rec.pqr -opdb -O /data/rec_temp.pdb"%string;
       "conda run -n mgl --no-capture-output bash -c 'export PYTHONPATH=/opt/mgl/pkgs:$PYTHONPATH && /opt/mgl/bin/pythonsh /opt/mgl/pkgs/AutoDockTools/Utilities24/prepare_receptor4.py -r rec_temp.pdb -o rec.pdbqt -A checkhydrogens'"%string]
  ∧ temp_pdb_path_of i = "/data/rec_temp.pdb"%string
  ∧ (os.stat res.2 (temp_pdb_path_of i) = None
     ∨ ∃ n, os.stat res.2 (temp_pdb_path_of i) = Some n ∧ is_dir n = true)
  ∧ os.stat res.2 "/data/rec_temp.pdb" = None.
Proof.
  intros res i.
  assert (os_path.ext_of i = "pqr"%string) as Hext by (by vm_compute).
  assert (res.1 = Ok true) as Hres by (by vm_compute).
  split; [exact Hext|]. split; [exact Hres|]. split; [by vm_compute|].
  split; [by vm_compute|]. split; [|by vm_compute].
  exact (temporary_file_removed_on_return Bench.working "/data/rec.pqr" "/data/rec.pdbqt"
           true (PyFloat "7.4") (Some "/etc/dock.json"%string) None Demo.start true
           Hext Hres).
Defined.

(** X14: the extension is compared in lower case and replaced as it is
    written.  For a receptor [REC.PQR] the path of the temporary file is the
    path of the input: the converter is told to write onto the input, the
    receptor script runs on it, and the removal of the temporary file
    removes the input of the caller. *)
Theorem upper_case_input_is_removed :
  let res := run_program Bench.working "MGLTools" "/data/REC.PQR" "/data/rec.pdbqt" true
               (PyFloat "7.4") (Some "/etc/dock.json"%string) None Bench.upper_start in
  os_path.ext_of "/data/REC.PQR" = "pqr"%string
  ∧ temp_pdb_path_of "/data/REC.PQR" = "/data/REC.PQR"%string
  ∧ os.stat Bench.upper_start "/data/REC.PQR" = Some Demo.file
  ∧ (sp_command <$> spawned res.2)
    = ["obabel -ipqr /data/REC.PQR -opdb -O /data/REC.PQR"%string;
       "conda run -n mgl --no-capture-output bash -c 'export PYTHONPATH=/opt/mgl/pkgs:$PYTHONPATH && /opt/mgl/bin/pythonsh /opt/mgl/pkgs/AutoDockTools/Utilities24/prepare_receptor4.py -r REC.PQR -o rec.pdbqt -A checkhydrogens -C -U nphs_lps'"%string]
  ∧ res.1 = Ok true
  ∧ last (stdout res.2) = Some "Removed temporary PDB file: ../data/REC.PQR"%string
  ∧ os.stat res.2 "/data/REC.PQR" = None.
Proof. repeat split; by vm_compute. Qed.

